(** * Tablet and rowset metadata (src/server/metadata.h)

    A shallow embedding of the block-tracking layer declared in
    [src/server/metadata.h]: [RowSetMetadata] with the methods whose bodies
    are in the header, and [TabletMetadata] with the operations whose bodies
    live in the implementation file.

    Conventions.
    - [int32_t], [uint32_t] and [Atomic32] values are [Z]; where the code
      can leave the range the wrap-around is written out.
    - [size_t] indices and sizes are [nat]: they index and measure lists.
    - A [CHECK] that fails ends the process: [CheckFailure].  Reading a
      vector out of range or following a dangling pointer is
      [UndefinedBehaviour].
    - Objects reached through [shared_ptr] or a raw pointer live in a heap
      and are named by their address. *)

From stdpp Require Import gmap list strings sorting.
From Stdlib Require Import ZArith Lia.

Local Open Scope Z_scope.

#[local] Set Warnings "-clear-no-such-hyp".

(** ** Values shared by both classes *)

(** Modelled from the spec: the failure codes of [Status]
    (util/status.h): the recoverable failures of the error taxonomy;
    messages are dropped. *)
Inductive Error : Type :=
  | IOError
  | Corruption
  | NotFound.

(** Modelled from the spec: [Status] (util/status.h): OK or a failure. *)
Inductive Status : Type :=
  | OK
  | Failed (e : Error).

Definition ok (s : Status) : bool :=
  match s with OK => true | Failed _ => false end.

#[global] Instance Error_eq_dec : EqDecision Error.
Proof. solve_decision. Defined.

#[global] Instance Status_eq_dec : EqDecision Status.
Proof. solve_decision. Defined.

(** A [Status] together with the out-parameters the callee fills in when
    it succeeds. *)
Inductive result (A : Type) : Type :=
  | Ok (a : A)
  | Err (e : Error).
Arguments Ok {A} a.
Arguments Err {A} e.

(** Modelled from the spec: [BlockId] (server/fsmanager.h): an opaque
    identifier assigned by the block store, with a distinguishable unset
    state.  A default-constructed [BlockId] is unset. *)
Inductive BlockId : Type :=
  | NullBlockId
  | StoreBlockId (n : N).

Definition IsNull (b : BlockId) : bool :=
  match b with NullBlockId => true | StoreBlockId _ => false end.

#[global] Instance BlockId_eq_dec : EqDecision BlockId.
Proof. solve_decision. Defined.

(** What a call can do besides returning. *)
Inductive outcome (A : Type) : Type :=
  | Returns (a : A)
  | CheckFailure
  | UndefinedBehaviour.
Arguments Returns {A} a.
Arguments CheckFailure {A}.
Arguments UndefinedBehaviour {A}.

(** Addresses of heap objects. *)
Definition addr := positive.


Definition wrap_int32 (z : Z) : Z := (z + 2147483648) mod 4294967296 - 2147483648.
Definition to_uint32 (z : Z) : Z := z mod 4294967296.

(** ** The descriptors of the superblock *)

(** Modelled from the spec: [RowSetDataPB] (server/metadata.pb.h): rowset
    id, bloom block id or absent, ad-hoc index block id or absent, ordered
    column block ids, ordered (delta id, block id) pairs. *)
Record RowSetDataPB : Type := {
  pb_id : Z;
  pb_bloom_block : option BlockId;
  pb_adhoc_index_block : option BlockId;
  pb_column_blocks : list BlockId;
  pb_delta_blocks : list (Z * BlockId)
}.

(** Modelled from the spec: [TabletSuperBlockPB] (server/metadata.pb.h):
    tablet id, start key, end key, ordered list of rowset descriptors. *)
Record TabletSuperBlockPB : Type := {
  pb_oid : string;
  pb_start_key : string;
  pb_end_key : string;
  pb_rowsets : list RowSetDataPB
}.

(** ** The block store *)

(** Modelled from the spec: [FsManager] (server/fsmanager.h), taken as an
    interface over a store state [FS].  [MasterBlock] stands for
    [TabletMasterBlockPB], [File] for the [RandomAccessFile] handle.  The
    [WritableFile] handle that [CreateNewBlock] also hands out is not
    tracked.

    [CreateNewBlock fs b] is [CreateNewBlock(writer, &block_id)] where [b]
    is the content of [block_id] before the call: the result carries the
    status, the content of [block_id] after the call, and the store.

    [ReadSuperBlock fs mb] is the private [TabletMetadata::ReadSuperBlock]
    for a tablet whose master block is [mb]: the durable read and the
    descriptor decoder.  [WriteSuperBlock] is its counterpart: the encoder
    and the durable write that replaces the superblock. *)
Class FsManager (MasterBlock File FS : Type) : Type := {
  CreateNewBlock : FS → BlockId → Status * BlockId * FS;
  OpenBlock : FS → BlockId → result File;
  BlockExists : FS → BlockId → bool;
  Size : File → result Z;
  WriteSuperBlock : FS → MasterBlock → TabletSuperBlockPB → Status * FS;
  ReadSuperBlock : FS → MasterBlock → result TabletSuperBlockPB
}.

(** ** RowSetMetadata *)

(** The data members of [RowSetMetadata].  [deltas_lock_] is free whenever
    no call is in progress; it is part of the interleaving model below. *)
Record RowSetMetadata : Type := mkRowSetMetadata {
  bloom_block_ : BlockId;
  adhoc_index_block_ : BlockId;
  column_blocks_ : list BlockId;
  delta_blocks_ : list (Z * BlockId);
  tablet_metadata_ : addr;
  id_ : Z
}.

Definition set_bloom_block (b : BlockId) (r : RowSetMetadata) : RowSetMetadata :=
  mkRowSetMetadata b (adhoc_index_block_ r) (column_blocks_ r)
                   (delta_blocks_ r) (tablet_metadata_ r) (id_ r).

Definition set_adhoc_index_block (b : BlockId) (r : RowSetMetadata) : RowSetMetadata :=
  mkRowSetMetadata (bloom_block_ r) b (column_blocks_ r)
                   (delta_blocks_ r) (tablet_metadata_ r) (id_ r).

Definition set_column_blocks (l : list BlockId) (r : RowSetMetadata) : RowSetMetadata :=
  mkRowSetMetadata (bloom_block_ r) (adhoc_index_block_ r) l
                   (delta_blocks_ r) (tablet_metadata_ r) (id_ r).

Definition set_delta_blocks (l : list (Z * BlockId)) (r : RowSetMetadata) : RowSetMetadata :=
  mkRowSetMetadata (bloom_block_ r) (adhoc_index_block_ r) (column_blocks_ r)
                   l (tablet_metadata_ r) (id_ r).

(** The constructor [RowSetMetadata(tablet_metadata, id)]: the block ids
    and both vectors are default-constructed. *)
Definition new_RowSetMetadata (tablet_metadata : addr) (id : Z) : RowSetMetadata :=
  mkRowSetMetadata NullBlockId NullBlockId [] [] tablet_metadata id.

Section RowSet.
Context {MasterBlock File FS : Type} {fsm : FsManager MasterBlock File FS}.

(** [OpenDataBlock]: the reader and the size are the caller's
    out-parameters, meaningful when the status is OK. *)
Definition OpenDataBlock (fs : FS) (block_id : BlockId) : result (File * Z) :=
  match OpenBlock fs block_id with
  | Err e => Err e
  | Ok reader =>
      match Size reader with
      | Err e => Err e
      | Ok size => Ok (reader, size)
      end
  end.

Definition NewBloomDataBlock (self : RowSetMetadata) (fs : FS)
  : outcome (Status * RowSetMetadata * FS) :=
  if IsNull (bloom_block_ self) then
    let '(s, b, fs') := CreateNewBlock fs (bloom_block_ self) in
    Returns (s, set_bloom_block b self, fs')
  else CheckFailure.

Definition OpenBloomDataBlock (self : RowSetMetadata) (fs : FS) :=
  OpenDataBlock fs (bloom_block_ self).

Definition NewAdHocIndexDataBlock (self : RowSetMetadata) (fs : FS)
  : outcome (Status * RowSetMetadata * FS) :=
  if IsNull (adhoc_index_block_ self) then
    let '(s, b, fs') := CreateNewBlock fs (adhoc_index_block_ self) in
    Returns (s, set_adhoc_index_block b self, fs')
  else CheckFailure.

Definition OpenAdHocIndexDataBlock (self : RowSetMetadata) (fs : FS) :=
  OpenDataBlock fs (adhoc_index_block_ self).

Definition NewColumnDataBlock (self : RowSetMetadata) (col_idx : nat) (fs : FS)
  : outcome (Status * RowSetMetadata * FS) :=
  if decide (length (column_blocks_ self) = col_idx) then
    let '(s, block_id, fs') := CreateNewBlock fs NullBlockId in
    if ok s then
      Returns (OK, set_column_blocks (column_blocks_ self ++ [block_id]) self, fs')
    else Returns (s, self, fs')
  else CheckFailure.

(** The body as a release build has it: [DCHECK_LT] is compiled out, so
    the read of [column_blocks_[col_idx]] is what decides. *)
Definition OpenColumnDataBlock (self : RowSetMetadata) (col_idx : nat) (fs : FS)
  : outcome (result (File * Z)) :=
  match column_blocks_ self !! col_idx with
  | Some b => Returns (OpenDataBlock fs b)
  | None => UndefinedBehaviour
  end.

(** The method in either build.  In a debug build
    [DCHECK_LT(col_idx, column_blocks_.size())] comes first and, like a
    [CHECK], ends the process when [col_idx] is not below the size, so the
    vector is never read out of range; in a release build the assertion
    is absent and the body above is all there is. *)
Definition OpenColumnDataBlock_build (debug : bool)
    (self : RowSetMetadata) (col_idx : nat) (fs : FS)
  : outcome (result (File * Z)) :=
  if debug && negb (bool_decide (col_idx < length (column_blocks_ self))%nat)
  then CheckFailure
  else OpenColumnDataBlock self col_idx fs.

(** [block_id] is the caller's [BlockId] before the call. *)
Definition NewDeltaDataBlock (self : RowSetMetadata) (block_id : BlockId) (fs : FS)
  : Status * BlockId * RowSetMetadata * FS :=
  let '(s, b, fs') := CreateNewBlock fs block_id in (s, b, self, fs').

Definition CommitDeltaDataBlock (self : RowSetMetadata) (id : Z) (block_id : BlockId)
  : Status * RowSetMetadata :=
  (OK, set_delta_blocks (delta_blocks_ self ++ [(id, block_id)]) self).

Definition OpenDeltaDataBlock (self : RowSetMetadata) (index : nat) (fs : FS)
  : outcome (result (File * Z)) :=
  match delta_blocks_ self !! index with
  | Some d => Returns (OpenDataBlock fs d.2)
  | None => UndefinedBehaviour
  end.

Definition delta_blocks_count (self : RowSetMetadata) : nat :=
  length (delta_blocks_ self).

Definition HasColumnDataBlockForTests (self : RowSetMetadata) (idx : nat) (fs : FS) : bool :=
  match column_blocks_ self !! idx with
  | Some b => BlockExists fs b
  | None => false
  end.

Definition HasBloomDataBlockForTests (self : RowSetMetadata) (fs : FS) : bool :=
  negb (IsNull (bloom_block_ self)) && BlockExists fs (bloom_block_ self).

End RowSet.

(** ** TabletMetadata *)

(** The data members of [TabletMetadata].  [rowsets_] holds the addresses
    of the shared [RowSetMetadata] objects.  [fs_manager_] is the one
    store of the world below; [lock_] is free whenever no call is in
    progress. *)
Record TabletMetadata (MasterBlock : Type) : Type := mkTabletMetadata {
  oid_ : string;
  start_key_ : string;
  end_key_ : string;
  rowsets_ : list addr;
  master_block_ : MasterBlock;
  sblk_id_ : Z;
  next_rowset_idx_ : Z
}.
Arguments mkTabletMetadata {MasterBlock}.
Arguments oid_ {MasterBlock}.
Arguments start_key_ {MasterBlock}.
Arguments end_key_ {MasterBlock}.
Arguments rowsets_ {MasterBlock}.
Arguments master_block_ {MasterBlock}.
Arguments sblk_id_ {MasterBlock}.
Arguments next_rowset_idx_ {MasterBlock}.

Definition set_rowsets {MB} (l : list addr) (t : TabletMetadata MB) : TabletMetadata MB :=
  mkTabletMetadata (oid_ t) (start_key_ t) (end_key_ t) l
                   (master_block_ t) (sblk_id_ t) (next_rowset_idx_ t).

Definition set_next_rowset_idx {MB} (n : Z) (t : TabletMetadata MB) : TabletMetadata MB :=
  mkTabletMetadata (oid_ t) (start_key_ t) (end_key_ t) (rowsets_ t)
                   (master_block_ t) (sblk_id_ t) n.

(** The constructor: no rowsets, [sblk_id_] and [next_rowset_idx_] zero. *)
Definition new_TabletMetadata {MB} (oid : string) (master_block : MB)
    (start_key end_key : string) : TabletMetadata MB :=
  mkTabletMetadata oid start_key end_key [] master_block 0 0.

(** The store, and the objects that are alive. *)
Record World (MasterBlock FS : Type) : Type := mkWorld {
  fs_of : FS;
  tablets : gmap addr (TabletMetadata MasterBlock);
  rowset_objs : gmap addr RowSetMetadata
}.
Arguments mkWorld {MasterBlock FS}.
Arguments fs_of {MasterBlock FS}.
Arguments tablets {MasterBlock FS}.
Arguments rowset_objs {MasterBlock FS}.

(** Modelled from the spec: how a bloom or ad-hoc index slot is written
    to a descriptor: an unset slot is an absent field. *)
Definition block_to_pb (b : BlockId) : option BlockId :=
  if IsNull b then None else Some b.

(** Modelled from the spec: [RowSetMetadata::ToProtobuf] (declared in the
    header, body in the implementation file). *)
Definition ToProtobuf (self : RowSetMetadata) : RowSetDataPB :=
  {| pb_id := id_ self;
     pb_bloom_block := block_to_pb (bloom_block_ self);
     pb_adhoc_index_block := block_to_pb (adhoc_index_block_ self);
     pb_column_blocks := column_blocks_ self;
     pb_delta_blocks := delta_blocks_ self |}.

(** Modelled from the spec: how a bloom or ad-hoc index slot is read back:
    an absent field leaves the slot unset. *)
Definition block_of_pb (o : option BlockId) : BlockId :=
  match o with Some b => b | None => NullBlockId end.

(** Modelled from the spec: [RowSetMetadata::Load] (body in the
    implementation file): hydrates the four block-id lists from a decoded
    descriptor.  A malformed encoding is refused by the decoder, that is
    by [ReadSuperBlock]; a decoded descriptor always hydrates. *)
Definition RowSetMetadata_Load (self : RowSetMetadata) (pb : RowSetDataPB)
  : Status * RowSetMetadata :=
  (OK, mkRowSetMetadata (block_of_pb (pb_bloom_block pb))
                        (block_of_pb (pb_adhoc_index_block pb))
                        (pb_column_blocks pb) (pb_delta_blocks pb)
                        (tablet_metadata_ self) (id_ self)).

(** Modelled from the spec: [RowSetMetadata::Create] (body in the
    implementation file): no blocks yet, no I/O. *)
Definition RowSetMetadata_Create (self : RowSetMetadata) : Status * RowSetMetadata :=
  (OK, self).

Section Tablet.
Context {MasterBlock File FS : Type} {fsm : FsManager MasterBlock File FS}.

Abbreviation world := (World MasterBlock FS).
Abbreviation tablet := (TabletMetadata MasterBlock).

(** Calls thread the world and may end the process. *)
Definition M (A : Type) : Type := world → outcome (A * world).

Definition ret {A} (a : A) : M A := λ w, Returns (a, w).

Definition bind {A B} (m : M A) (k : A → M B) : M B :=
  λ w, match m w with
       | Returns (a, w') => k a w'
       | CheckFailure => CheckFailure
       | UndefinedBehaviour => UndefinedBehaviour
       end.

Definition set_fs (fs : FS) (w : world) : world :=
  mkWorld fs (tablets w) (rowset_objs w).

Definition put_tablet (a : addr) (t : tablet) (w : world) : world :=
  mkWorld (fs_of w) (<[a := t]> (tablets w)) (rowset_objs w).

Definition put_rowset (a : addr) (r : RowSetMetadata) (w : world) : world :=
  mkWorld (fs_of w) (tablets w) (<[a := r]> (rowset_objs w)).

(** [new TabletMetadata(fs_manager, oid, master_block, start_key, end_key)] *)
Definition alloc_tablet (oid : string) (master_block : MasterBlock)
    (start_key end_key : string) : M addr :=
  λ w, let a := fresh (dom (tablets w)) in
       Returns (a, put_tablet a (new_TabletMetadata oid master_block start_key end_key) w).

(** [rowsets()] *)
Definition rowsets (this : addr) (w : world) : option (list addr) :=
  rowsets_ <$> tablets w !! this.

(** The objects behind a vector of [shared_ptr<RowSetMetadata>]. *)
Definition deref_all (heap : gmap addr RowSetMetadata) (l : list addr)
  : option (list RowSetMetadata) :=
  mapM (λ p, heap !! p) l.

(** Modelled from the spec: the removal loop of
    [TabletMetadata::UpdateAndFlush] (body in the implementation file):
    walk the vector and drop every rowset whose id is in [to_remove].
    [to_remove] holds [uint32_t] keys, [id()] is an [int32_t]. *)
Fixpoint remove_rowsets (heap : gmap addr RowSetMetadata) (to_remove : gset Z)
    (l : list addr) : option (list addr) :=
  match l with
  | [] => Some []
  | p :: l' =>
      match heap !! p with
      | None => None
      | Some r =>
          match remove_rowsets heap to_remove l' with
          | None => None
          | Some kept =>
              if decide (to_uint32 (id_ r) ∈ to_remove) then Some kept
              else Some (p :: kept)
          end
      end
  end.

(** Modelled from the spec: the descriptor of the whole tablet: identity,
    key bounds, and one descriptor per rowset, in order. *)
Definition ToSuperBlockPB (t : tablet) (rs : list RowSetMetadata) : TabletSuperBlockPB :=
  {| pb_oid := oid_ t;
     pb_start_key := start_key_ t;
     pb_end_key := end_key_ t;
     pb_rowsets := ToProtobuf <$> rs |}.

(** Modelled from the spec: [TabletMetadata::UpdateAndFlush] (body in the
    implementation file).  The new collection is built aside, serialized
    and written; [rowsets_] takes the new collection only when the write
    succeeded. *)
Definition UpdateAndFlush (this : addr) (to_remove : gset Z) (to_add : list addr)
  : M Status :=
  λ w,
    match tablets w !! this with
    | None => UndefinedBehaviour
    | Some t =>
        match remove_rowsets (rowset_objs w) to_remove (rowsets_ t) with
        | None => UndefinedBehaviour
        | Some kept =>
            let new_rowsets := kept ++ to_add in
            match deref_all (rowset_objs w) new_rowsets with
            | None => UndefinedBehaviour
            | Some rs =>
                let '(s, fs') :=
                  WriteSuperBlock (fs_of w) (master_block_ t) (ToSuperBlockPB t rs) in
                if ok s then
                  Returns (OK, put_tablet this (set_rowsets new_rowsets t) (set_fs fs' w))
                else Returns (s, set_fs fs' w)
            end
        end
    end.

(** [Flush() { return UpdateAndFlush(RowSetMetadataIds(), RowSetMetadataVector()); }] *)
Definition TabletMetadata_Flush (this : addr) : M Status :=
  UpdateAndFlush this ∅ [].

(** Modelled from the spec: [TabletMetadata::Create] (body in the
    implementation file): an empty descriptor and the first flush. *)
Definition TabletMetadata_Create (this : addr) : M Status :=
  TabletMetadata_Flush this.

(** Modelled from the spec: [TabletMetadata::CreateRowSet] (body in the
    implementation file): one atomic increment of [next_rowset_idx_]
    yields the id, a [RowSetMetadata] bound to this tablet is
    constructed and handed out; nothing is registered or flushed.  The
    counter is an [Atomic32]: the increment wraps. *)
Definition CreateRowSet (this : addr) : M (Status * addr) :=
  λ w,
    match tablets w !! this with
    | None => UndefinedBehaviour
    | Some t =>
        let id := next_rowset_idx_ t in
        let p := fresh (dom (rowset_objs w)) in
        Returns ((OK, p),
                 put_rowset p (new_RowSetMetadata this id)
                   (put_tablet this (set_next_rowset_idx (wrap_int32 (id + 1)) t) w))
    end.

(** Modelled from the spec: the hydration loop of
    [TabletMetadata::Load]: one fresh [RowSetMetadata] per descriptor,
    bound to this tablet, in the order of the superblock. *)
Fixpoint load_rowsets (this : addr) (pbs : list RowSetDataPB)
    (heap : gmap addr RowSetMetadata) : list addr * gmap addr RowSetMetadata :=
  match pbs with
  | [] => ([], heap)
  | pb :: pbs' =>
      let p := fresh (dom heap) in
      let '(_, r) := RowSetMetadata_Load (new_RowSetMetadata this (pb_id pb)) pb in
      let '(ps, heap') := load_rowsets this pbs' (<[p := r]> heap) in
      (p :: ps, heap')
  end.

(** Modelled from the spec: [TabletMetadata::Load] (body in the
    implementation file): read the superblock through the master block,
    rebuild the rowsets sequence.  A failed read or decode is returned
    and leaves the object alone. *)
Definition TabletMetadata_Load (this : addr) : M Status :=
  λ w,
    match tablets w !! this with
    | None => UndefinedBehaviour
    | Some t =>
        match ReadSuperBlock (fs_of w) (master_block_ t) with
        | Err e => Returns (Failed e, w)
        | Ok pb =>
            let '(ps, heap') := load_rowsets this (pb_rowsets pb) (rowset_objs w) in
            Returns (OK, mkWorld (fs_of w) (<[this := set_rowsets ps t]> (tablets w)) heap')
        end
    end.

(** A method of [RowSetMetadata] called through a pointer. *)
Definition on_rowset {A} (self : addr)
    (f : RowSetMetadata → FS → outcome (A * RowSetMetadata * FS)) : M A :=
  λ w,
    match rowset_objs w !! self with
    | None => UndefinedBehaviour
    | Some r =>
        match f r (fs_of w) with
        | Returns (a, r', fs') => Returns (a, put_rowset self r' (set_fs fs' w))
        | CheckFailure => CheckFailure
        | UndefinedBehaviour => UndefinedBehaviour
        end
    end.

(** [RowSetMetadata::Flush() { return tablet_metadata_->Flush(); }] *)
Definition RowSetMetadata_Flush (self : addr) : M Status :=
  λ w,
    match rowset_objs w !! self with
    | None => UndefinedBehaviour
    | Some r => TabletMetadata_Flush (tablet_metadata_ r) w
    end.

End Tablet.

Arguments M MasterBlock FS A : clear implicits.

(** ** Sequences of calls *)

(** The calls a writer or reader makes on one [RowSetMetadata]. *)
Inductive RowSetCall : Type :=
  | CallNewBloomDataBlock
  | CallOpenBloomDataBlock
  | CallNewAdHocIndexDataBlock
  | CallOpenAdHocIndexDataBlock
  | CallNewColumnDataBlock (col_idx : nat)
  | CallOpenColumnDataBlock (col_idx : nat)
  | CallNewDeltaDataBlock (block_id : BlockId)
  | CallCommitDeltaDataBlock (id : Z) (block_id : BlockId)
  | CallOpenDeltaDataBlock (index : nat)
  | CallDeltaBlocksCount.

(** The pairs handed to [CommitDeltaDataBlock], in call order. *)
Fixpoint commits (cs : list RowSetCall) : list (Z * BlockId) :=
  match cs with
  | [] => []
  | CallCommitDeltaDataBlock id block_id :: cs' => (id, block_id) :: commits cs'
  | _ :: cs' => commits cs'
  end.

Section Calls.
Context {MasterBlock File FS : Type} {fsm : FsManager MasterBlock File FS}.

Definition keep_state {A} (self : RowSetMetadata) (fs : FS) (o : outcome A)
  : outcome (RowSetMetadata * FS) :=
  match o with
  | Returns _ => Returns (self, fs)
  | CheckFailure => CheckFailure
  | UndefinedBehaviour => UndefinedBehaviour
  end.

Definition new_state {A} (o : outcome (A * RowSetMetadata * FS))
  : outcome (RowSetMetadata * FS) :=
  match o with
  | Returns (_, self', fs') => Returns (self', fs')
  | CheckFailure => CheckFailure
  | UndefinedBehaviour => UndefinedBehaviour
  end.

(** One call: the state it leaves, the returned values dropped. *)
Definition call (c : RowSetCall) (self : RowSetMetadata) (fs : FS)
  : outcome (RowSetMetadata * FS) :=
  match c with
  | CallNewBloomDataBlock => new_state (NewBloomDataBlock self fs)
  | CallOpenBloomDataBlock => keep_state self fs (Returns (OpenBloomDataBlock self fs))
  | CallNewAdHocIndexDataBlock => new_state (NewAdHocIndexDataBlock self fs)
  | CallOpenAdHocIndexDataBlock =>
      keep_state self fs (Returns (OpenAdHocIndexDataBlock self fs))
  | CallNewColumnDataBlock col_idx => new_state (NewColumnDataBlock self col_idx fs)
  | CallOpenColumnDataBlock col_idx =>
      keep_state self fs (OpenColumnDataBlock self col_idx fs)
  | CallNewDeltaDataBlock block_id =>
      let '(_, _, self', fs') := NewDeltaDataBlock self block_id fs in Returns (self', fs')
  | CallCommitDeltaDataBlock id block_id =>
      let '(_, self') := CommitDeltaDataBlock self id block_id in Returns (self', fs)
  | CallOpenDeltaDataBlock index =>
      keep_state self fs (OpenDeltaDataBlock self index fs)
  | CallDeltaBlocksCount => keep_state self fs (Returns (delta_blocks_count self))
  end.

Fixpoint calls (cs : list RowSetCall) (self : RowSetMetadata) (fs : FS)
  : outcome (RowSetMetadata * FS) :=
  match cs with
  | [] => Returns (self, fs)
  | c :: cs' =>
      match call c self fs with
      | Returns (self', fs') => calls cs' self' fs'
      | CheckFailure => CheckFailure
      | UndefinedBehaviour => UndefinedBehaviour
      end
  end.

End Calls.

(** ** A block store for tests

    An in-memory store with fault injection: every creating or writing
    operation consumes one entry of [sim_faults]; [true] makes that
    operation fail with an I/O error and no other effect.  The master
    block is the name under which the superblock is kept. *)
Record SimFs : Type := mkSimFs {
  sim_next_block : N;
  sim_blocks : gmap N Z;
  sim_superblocks : gmap string TabletSuperBlockPB;
  sim_faults : list bool
}.

Definition sim_empty (faults : list bool) : SimFs := mkSimFs 1 ∅ ∅ faults.

Definition sim_CreateNewBlock (fs : SimFs) (b : BlockId) : Status * BlockId * SimFs :=
  match sim_faults fs with
  | true :: faults =>
      (Failed IOError, b,
       mkSimFs (sim_next_block fs) (sim_blocks fs) (sim_superblocks fs) faults)
  | faults =>
      (OK, StoreBlockId (sim_next_block fs),
       mkSimFs (N.succ (sim_next_block fs)) (<[sim_next_block fs := 0]> (sim_blocks fs))
               (sim_superblocks fs) (tail faults))
  end.

Definition sim_OpenBlock (fs : SimFs) (b : BlockId) : result (N * Z) :=
  match b with
  | NullBlockId => Err NotFound
  | StoreBlockId n =>
      match sim_blocks fs !! n with
      | Some size => Ok (n, size)
      | None => Err NotFound
      end
  end.

Definition sim_BlockExists (fs : SimFs) (b : BlockId) : bool :=
  match b with
  | NullBlockId => false
  | StoreBlockId n => bool_decide (is_Some (sim_blocks fs !! n))
  end.

Definition sim_WriteSuperBlock (fs : SimFs) (mb : string) (pb : TabletSuperBlockPB)
  : Status * SimFs :=
  match sim_faults fs with
  | true :: faults =>
      (Failed IOError,
       mkSimFs (sim_next_block fs) (sim_blocks fs) (sim_superblocks fs) faults)
  | faults =>
      (OK, mkSimFs (sim_next_block fs) (sim_blocks fs)
                   (<[mb := pb]> (sim_superblocks fs)) (tail faults))
  end.

Definition sim_ReadSuperBlock (fs : SimFs) (mb : string) : result TabletSuperBlockPB :=
  match sim_superblocks fs !! mb with
  | Some pb => Ok pb
  | None => Err NotFound
  end.

#[global] Instance SimFsManager : FsManager string (N * Z) SimFs := {|
  CreateNewBlock := sim_CreateNewBlock;
  OpenBlock := sim_OpenBlock;
  BlockExists := sim_BlockExists;
  Size := λ f, Ok f.2;
  WriteSuperBlock := sim_WriteSuperBlock;
  ReadSuperBlock := sim_ReadSuperBlock
|}.

(** ** What the metadata layer assumes of the store

    The durable write of the superblock completes or fails as a whole:
    after a write that returned OK the superblock read through the same
    master block is the one written, and a write that failed changes no
    superblock. *)
Class FsManagerLaws {MasterBlock File FS : Type}
    (fsm : FsManager MasterBlock File FS) : Prop := {
  superblock_write_read :
    ∀ fs mb pb fs',
      WriteSuperBlock fs mb pb = (OK, fs') → ReadSuperBlock fs' mb = Ok pb;
  superblock_failed_write :
    ∀ fs mb pb e fs' mb',
      WriteSuperBlock fs mb pb = (Failed e, fs') →
      ReadSuperBlock fs' mb' = ReadSuperBlock fs mb'
}.

(** ** Calls on a tablet and on its rowsets *)

(** [p] points to a rowset whose id, as a key of [RowSetMetadataIds], is
    in [ids]. *)
Definition rowset_id_in (heap : gmap addr RowSetMetadata) (ids : gset Z) (p : addr) : Prop :=
  match heap !! p with
  | Some r => to_uint32 (id_ r) ∈ ids
  | None => False
  end.

#[global] Instance rowset_id_in_dec heap ids p : Decision (rowset_id_in heap ids p).
Proof. unfold rowset_id_in. destruct (heap !! p); apply _. Defined.

(** What the superblock records of a rowset. *)
Definition block_lists (r : RowSetMetadata)
  : Z * BlockId * BlockId * list BlockId * list (Z * BlockId) :=
  (id_ r, bloom_block_ r, adhoc_index_block_ r, column_blocks_ r, delta_blocks_ r).

(** The calls made on one tablet and on the rowsets it handed out. *)
Inductive TabletCall : Type :=
  | CallCreateRowSet
  | CallUpdateAndFlush (to_remove : gset Z) (to_add : list addr)
  | CallFlush
  | CallRowSet (self : addr) (c : RowSetCall).


Section TabletCalls.
Context {MasterBlock File FS : Type} {fsm : FsManager MasterBlock File FS}.

(** A call of [c] on the rowset at [self]. *)
Definition rowset_call (self : addr) (c : RowSetCall) : M MasterBlock FS unit :=
  on_rowset self (λ r fs,
    match call c r fs with
    | Returns (r', fs') => Returns (tt, r', fs')
    | CheckFailure => CheckFailure
    | UndefinedBehaviour => UndefinedBehaviour
    end).

(** One call on the tablet at [this]; the result lists the id of the
    rowset handed out, if the call was [CreateRowSet]. *)
Definition tablet_call (this : addr) (c : TabletCall) : M MasterBlock FS (list Z) :=
  match c with
  | CallCreateRowSet =>
      bind (CreateRowSet this) (λ '(_, p) w,
        match rowset_objs w !! p with
        | Some r => Returns ([id_ r], w)
        | None => UndefinedBehaviour
        end)
  | CallUpdateAndFlush to_remove to_add =>
      bind (UpdateAndFlush this to_remove to_add) (λ _, ret [])
  | CallFlush => bind (TabletMetadata_Flush this) (λ _, ret [])
  | CallRowSet self c => bind (rowset_call self c) (λ _, ret [])
  end.

(** A sequence of calls; the ids handed out, in call order. *)
Fixpoint tablet_calls (this : addr) (cs : list TabletCall) : M MasterBlock FS (list Z) :=
  match cs with
  | [] => ret []
  | c :: cs' =>
      bind (tablet_call this c) (λ ids,
        bind (tablet_calls this cs') (λ ids', ret (ids ++ ids')))
  end.

(** [CommitDeltaDataBlock(id, block_id)] called through a pointer. *)
Definition ptr_CommitDeltaDataBlock (self : addr) (id : Z) (block_id : BlockId)
  : M MasterBlock FS Status :=
  on_rowset self (λ r fs,
    let '(s, r') := CommitDeltaDataBlock r id block_id in Returns (s, r', fs)).

(** The delta chains the superblock anchored at [mb] lists, rowset by
    rowset. *)
Definition durable_delta_chains (fs : FS) (mb : MasterBlock)
  : option (list (list (Z * BlockId))) :=
  match ReadSuperBlock fs mb with
  | Ok pb => Some (pb_delta_blocks <$> pb_rowsets pb)
  | Err _ => None
  end.

(** The world a call leaves, when it returns. *)
Definition world_after {A} (m : M MasterBlock FS A) (w : World MasterBlock FS)
  : World MasterBlock FS :=
  match m w with
  | Returns (_, w') => w'
  | _ => w
  end.

(** A fresh [TabletMetadata] pointed at [master_block], then [Load()] on
    it: the address of the object and the status of the load. *)
Definition load_fresh (oid : string) (master_block : MasterBlock)
    (start_key end_key : string) : M MasterBlock FS (addr * Status) :=
  bind (alloc_tablet oid master_block start_key end_key) (λ that,
    bind (TabletMetadata_Load that) (λ s, ret (that, s))).

(** The rowsets a fresh [TabletMetadata] pointed at [master_block] has
    after a [Load()] that returned OK. *)
Definition reloaded_rowsets (oid : string) (master_block : MasterBlock)
    (start_key end_key : string) (w : World MasterBlock FS)
  : option (list RowSetMetadata) :=
  match load_fresh oid master_block start_key end_key w with
  | Returns ((that, OK), w') => rowsets that w' ≫= deref_all (rowset_objs w')
  | _ => None
  end.

(** Two outcomes an observer of the objects cannot tell apart: the same
    result and the same objects, whatever the store keeps privately. *)
Definition same_view {A} (o1 o2 : outcome (A * World MasterBlock FS)) : Prop :=
  match o1, o2 with
  | Returns (a1, w1), Returns (a2, w2) =>
      a1 = a2 ∧ tablets w1 = tablets w2 ∧ rowset_objs w1 = rowset_objs w2
  | CheckFailure, CheckFailure => True
  | UndefinedBehaviour, UndefinedBehaviour => True
  | _, _ => False
  end.

End TabletCalls.

(** ** Concurrent commits

    Two threads call [CommitDeltaDataBlock], on the same rowset or on two
    rowsets.  A call is cut at the points where another thread can run:
    the constructor of the [lock_guard] on [deltas_lock_], the read and
    the write that make up [push_back], and the destructor of the guard on
    return. *)

(** Where a thread is inside [CommitDeltaDataBlock]. *)
Inductive CommitPc : Type :=
  | AtLockGuard
  | AtPushBackRead
  | AtPushBackWrite (seen : list (Z * BlockId))
  | AtGuardRelease
  | Returned (s : Status).

(** A thread inside [self->CommitDeltaDataBlock(id, block_id)]. *)
Record CommitThread : Type := mkCommitThread {
  th_self : addr;
  th_id : Z;
  th_block_id : BlockId;
  th_pc : CommitPc
}.

Definition at_pc (pc : CommitPc) (th : CommitThread) : CommitThread :=
  mkCommitThread (th_self th) (th_id th) (th_block_id th) pc.

(** Holding the lock: between the constructor and the destructor of the
    guard. *)
Definition in_critical_section (th : CommitThread) : bool :=
  match th_pc th with
  | AtPushBackRead | AtPushBackWrite _ | AtGuardRelease => true
  | AtLockGuard | Returned _ => false
  end.

Definition has_returned (th : CommitThread) : bool :=
  match th_pc th with Returned _ => true | _ => false end.

(** Steps a thread still has to take. *)
Definition steps_left (th : CommitThread) : nat :=
  match th_pc th with
  | AtLockGuard => 4
  | AtPushBackRead => 3
  | AtPushBackWrite _ => 2
  | AtGuardRelease => 1
  | Returned _ => 0
  end.

(** The rowset objects, the rowsets whose [deltas_lock_] is held, and the
    two threads. *)
Record CommitConfig : Type := mkCommitConfig {
  c_objs : gmap addr RowSetMetadata;
  c_locks : gset addr;
  c_thread1 : CommitThread;
  c_thread2 : CommitThread
}.

Inductive ThreadId : Type := Thread1 | Thread2.

Definition thread_of (who : ThreadId) (c : CommitConfig) : CommitThread :=
  match who with Thread1 => c_thread1 c | Thread2 => c_thread2 c end.

(** Modelled from the spec: [simple_spinlock] (util/locks.h) under
    [boost::lock_guard]: a mutual-exclusion lock, one per rowset object;
    the constructor of the guard takes the lock when it is free and spins
    while it is held, the destructor frees it.

    One step of a thread on the shared state, following the body of
    [CommitDeltaDataBlock]; [None] when the thread cannot move: it spins
    on a held lock, it has returned, or [self] points to no object. *)
Definition commit_step (objs : gmap addr RowSetMetadata) (locks : gset addr)
    (th : CommitThread)
  : option (gmap addr RowSetMetadata * gset addr * CommitThread) :=
  match th_pc th with
  | AtLockGuard =>
      if decide (th_self th ∈ locks) then None
      else Some (objs, {[th_self th]} ∪ locks, at_pc AtPushBackRead th)
  | AtPushBackRead =>
      match objs !! th_self th with
      | Some r => Some (objs, locks, at_pc (AtPushBackWrite (delta_blocks_ r)) th)
      | None => None
      end
  | AtPushBackWrite seen =>
      match objs !! th_self th with
      | Some r =>
          Some (<[th_self th := set_delta_blocks (seen ++ [(th_id th, th_block_id th)]) r]> objs,
                locks, at_pc AtGuardRelease th)
      | None => None
      end
  | AtGuardRelease =>
      Some (objs, locks ∖ {[th_self th]}, at_pc (Returned OK) th)
  | Returned _ => None
  end.

(** The scheduler lets [who] take one step. *)
Definition sched_step (who : ThreadId) (c : CommitConfig) : option CommitConfig :=
  match commit_step (c_objs c) (c_locks c) (thread_of who c) with
  | Some (objs, locks, th) =>
      Some (match who with
            | Thread1 => mkCommitConfig objs locks th (c_thread2 c)
            | Thread2 => mkCommitConfig objs locks (c_thread1 c) th
            end)
  | None => None
  end.

Fixpoint run_schedule (sched : list ThreadId) (c : CommitConfig) : option CommitConfig :=
  match sched with
  | [] => Some c
  | who :: sched' =>
      match sched_step who c with
      | Some c' => run_schedule sched' c'
      | None => None
      end
  end.

(** Some thread takes a step. *)
Definition commit_steps (c c' : CommitConfig) : Prop :=
  ∃ who, sched_step who c = Some c'.

(** Both threads are about to enter their call; no lock is held. *)
Definition two_commits_start (objs : gmap addr RowSetMetadata)
    (self1 : addr) (id1 : Z) (block1 : BlockId)
    (self2 : addr) (id2 : Z) (block2 : BlockId) : CommitConfig :=
  mkCommitConfig objs ∅
    (mkCommitThread self1 id1 block1 AtLockGuard)
    (mkCommitThread self2 id2 block2 AtLockGuard).

Definition all_returned (c : CommitConfig) : bool :=
  has_returned (c_thread1 c) && has_returned (c_thread2 c).

(** The pair of a thread is in the vector once its write is done. *)
Definition has_written (th : CommitThread) : bool :=
  match th_pc th with
  | AtGuardRelease | Returned _ => true
  | AtLockGuard | AtPushBackRead | AtPushBackWrite _ => false
  end.

Definition commit_pair (th : CommitThread) : Z * BlockId := (th_id th, th_block_id th).

(** The pairs appended so far when both threads commit to one rowset. *)
Definition commit_log_ok (written1 written2 : bool) (p1 p2 : Z * BlockId)
    (log : list (Z * BlockId)) : Prop :=
  match written1, written2 with
  | false, false => log = []
  | true, false => log = [p1]
  | false, true => log = [p2]
  | true, true => log = [p1; p2] ∨ log = [p2; p1]
  end.

(** What holds of every configuration reached when both threads commit
    to the rowset at [a], which starts as [r0]. *)
Record same_rowset_inv (objs0 : gmap addr RowSetMetadata) (a : addr)
    (r0 : RowSetMetadata) (p1 p2 : Z * BlockId) (c : CommitConfig) : Prop := {
  sr_self1 : th_self (c_thread1 c) = a;
  sr_self2 : th_self (c_thread2 c) = a;
  sr_pair1 : commit_pair (c_thread1 c) = p1;
  sr_pair2 : commit_pair (c_thread2 c) = p2;
  sr_exclusion :
    in_critical_section (c_thread1 c) && in_critical_section (c_thread2 c) = false;
  sr_locks :
    c_locks c = if in_critical_section (c_thread1 c) || in_critical_section (c_thread2 c)
                then {[a]} else ∅;
  sr_log :
    ∃ log,
      c_objs c = <[a := set_delta_blocks (delta_blocks_ r0 ++ log) r0]> objs0
      ∧ commit_log_ok (has_written (c_thread1 c)) (has_written (c_thread2 c)) p1 p2 log
      ∧ (∀ seen, th_pc (c_thread1 c) = AtPushBackWrite seen → seen = delta_blocks_ r0 ++ log)
      ∧ (∀ seen, th_pc (c_thread2 c) = AtPushBackWrite seen → seen = delta_blocks_ r0 ++ log);
  sr_status1 : ∀ s, th_pc (c_thread1 c) = Returned s → s = OK;
  sr_status2 : ∀ s, th_pc (c_thread2 c) = Returned s → s = OK
}.

(** What holds of every configuration reached when the threads commit to
    two rowsets, at [a1] and [a2], which start as [r1] and [r2]. *)
Record two_rowsets_inv (objs0 : gmap addr RowSetMetadata)
    (a1 : addr) (r1 : RowSetMetadata) (p1 : Z * BlockId)
    (a2 : addr) (r2 : RowSetMetadata) (p2 : Z * BlockId) (c : CommitConfig) : Prop := {
  tr_self1 : th_self (c_thread1 c) = a1;
  tr_self2 : th_self (c_thread2 c) = a2;
  tr_pair1 : commit_pair (c_thread1 c) = p1;
  tr_pair2 : commit_pair (c_thread2 c) = p2;
  tr_locks :
    c_locks c = (if in_critical_section (c_thread1 c) then {[a1]} else ∅)
                ∪ (if in_critical_section (c_thread2 c) then {[a2]} else ∅);
  tr_objs :
    c_objs c =
      <[a2 := set_delta_blocks
                (delta_blocks_ r2 ++ if has_written (c_thread2 c) then [p2] else []) r2]>
        (<[a1 := set_delta_blocks
                   (delta_blocks_ r1 ++ if has_written (c_thread1 c) then [p1] else []) r1]>
           objs0);
  tr_seen1 : ∀ seen, th_pc (c_thread1 c) = AtPushBackWrite seen → seen = delta_blocks_ r1;
  tr_seen2 : ∀ seen, th_pc (c_thread2 c) = AtPushBackWrite seen → seen = delta_blocks_ r2;
  tr_status1 : ∀ s, th_pc (c_thread1 c) = Returned s → s = OK;
  tr_status2 : ∀ s, th_pc (c_thread2 c) = Returned s → s = OK
}.

(** ** Fixtures *)

(** A rowset of tablet 1 with id 7, and the same with its bloom block
    allocated. *)
Definition rs7 : RowSetMetadata := new_RowSetMetadata 1%positive 7.
Definition rs7_bloom : RowSetMetadata := set_bloom_block (StoreBlockId 1) rs7.

(** Two delta blocks allocated and committed, with reads in between. *)
Definition two_commits : list RowSetCall :=
  [ CallNewDeltaDataBlock NullBlockId; CallDeltaBlocksCount;
    CallCommitDeltaDataBlock 0 (StoreBlockId 1);
    CallNewDeltaDataBlock NullBlockId; CallOpenDeltaDataBlock 0;
    CallCommitDeltaDataBlock 1 (StoreBlockId 2) ].

Definition rs7_two_deltas : RowSetMetadata :=
  set_delta_blocks [(0, StoreBlockId 1); (1, StoreBlockId 2)] rs7.

Definition fs_one_block : SimFs := mkSimFs 2 (<[1%N := 0]> ∅) ∅ [].

Definition fs_two_blocks : SimFs :=
  mkSimFs 3 (<[2%N := 0]> (<[1%N := 0]> ∅)) ∅ [].

(** The scenario of the tablet with keys "a" to "m" on the test store: the
    tablet is created, one rowset gets three column blocks and a bloom
    block, and is added and flushed. *)
Definition world0 : World string SimFs := mkWorld (sim_empty []) ∅ ∅.

Definition w_tablet : World string SimFs :=
  world_after (alloc_tablet "tablet-1" "mb" "a" "m") world0.

Definition w_created : World string SimFs :=
  world_after (TabletMetadata_Create 1%positive) w_tablet.

Definition w_rowset : World string SimFs :=
  world_after (CreateRowSet 1%positive) w_created.

Definition populate : list TabletCall :=
  [ CallRowSet 1%positive (CallNewColumnDataBlock 0);
    CallRowSet 1%positive (CallNewColumnDataBlock 1);
    CallRowSet 1%positive (CallNewColumnDataBlock 2);
    CallRowSet 1%positive CallNewBloomDataBlock ].

Definition w_populated : World string SimFs :=
  world_after (tablet_calls 1%positive populate) w_rowset.

Definition w_flushed : World string SimFs :=
  world_after (UpdateAndFlush 1%positive ∅ [1%positive]) w_populated.

(** One delta block is written and committed to the registered rowset. *)
Definition w_committed : World string SimFs :=
  world_after (ptr_CommitDeltaDataBlock 1%positive 0 (StoreBlockId 5))
    (world_after (rowset_call 1%positive (CallNewDeltaDataBlock NullBlockId)) w_flushed).

(** The rowset object of the scenario once populated, and the tablet
    object as constructed. *)
Definition rs_populated : RowSetMetadata :=
  mkRowSetMetadata (StoreBlockId 4) NullBlockId
    [StoreBlockId 1; StoreBlockId 2; StoreBlockId 3] [] 1%positive 0.


(** The same world with a store whose next write fails. *)
Definition sim_inject (faults : list bool) (fs : SimFs) : SimFs :=
  mkSimFs (sim_next_block fs) (sim_blocks fs) (sim_superblocks fs) faults.

Definition w_faulty : World string SimFs :=
  set_fs (sim_inject [true] (fs_of w_flushed)) w_flushed.

Definition w_failed : World string SimFs :=
  world_after (UpdateAndFlush 1%positive {[0]} []) w_faulty.

(** A second rowset is handed out; the first is then replaced by it. *)
Definition w_second : World string SimFs :=
  world_after (CreateRowSet 1%positive) w_flushed.

Definition w_replaced : World string SimFs :=
  world_after (UpdateAndFlush 1%positive {[0; 7]} [2%positive]) w_second.


(** Two rowsets of tablet 1, and schedules of two committing threads: one
    in which the second thread runs after the first, one in which the
    threads alternate. *)
Definition objs_two : gmap addr RowSetMetadata :=
  <[2%positive := new_RowSetMetadata 1%positive 8]> (<[1%positive := rs7]> ∅).

Definition one_after_the_other : list ThreadId :=
  [Thread2; Thread2; Thread2; Thread2; Thread1; Thread1; Thread1; Thread1].

Definition alternating : list ThreadId :=
  [Thread1; Thread2; Thread1; Thread2; Thread1; Thread2; Thread1; Thread2].

(** Two delta blocks are committed to the registered rowset, then a bare
    [Flush()]. *)
Definition commit_two_and_flush : list TabletCall :=
  [ CallRowSet 1%positive (CallNewDeltaDataBlock NullBlockId);
    CallRowSet 1%positive (CallCommitDeltaDataBlock 0 (StoreBlockId 5));
    CallRowSet 1%positive (CallNewDeltaDataBlock NullBlockId);
    CallRowSet 1%positive (CallCommitDeltaDataBlock 1 (StoreBlockId 6));
    CallFlush ].

Definition w_two_deltas : World string SimFs :=
  world_after (tablet_calls 1%positive commit_two_and_flush) w_flushed.

(** ** Requests for column blocks *)

(** The column indices handed to [NewColumnDataBlock], in call order. *)
Fixpoint column_requests (cs : list RowSetCall) : list nat :=
  match cs with
  | [] => []
  | CallNewColumnDataBlock col_idx :: cs' => col_idx :: column_requests cs'
  | _ :: cs' => column_requests cs'
  end.

(** ** Further fixtures *)

(** A writer records three column blocks, the second creation failing
    once, then the bloom block, then one delta block. *)
Definition write_path : list RowSetCall :=
  [ CallNewColumnDataBlock 0; CallNewColumnDataBlock 1; CallNewColumnDataBlock 1;
    CallNewColumnDataBlock 2; CallNewBloomDataBlock; CallOpenColumnDataBlock 1;
    CallNewDeltaDataBlock NullBlockId; CallCommitDeltaDataBlock 0 (StoreBlockId 5) ].

Definition fs_second_fails : SimFs := sim_empty [false; true].

(** A rowset with one column block recorded, on a store whose next
    creation fails, and what the writer still has to do. *)
Definition rs7_one_column : RowSetMetadata := set_column_blocks [StoreBlockId 1] rs7.

Definition fs_one_block_next_fails : SimFs := sim_inject [true] fs_one_block.

Definition write_path_rest : list RowSetCall := tail write_path.

(** Thread 2 is about to commit to rowset 1 while thread 1 has returned
    from a commit to rowset 2 and some other lock is held. *)
Definition c_thread2_starts : CommitConfig :=
  mkCommitConfig objs_two {[3%positive]}
    (mkCommitThread 2%positive 4 (StoreBlockId 8) (Returned OK))
    (mkCommitThread 1%positive 0 (StoreBlockId 1) AtLockGuard).

(** * Properties *)

(** ** The write path of one rowset *)

Section RowSetFacts.
Context {MasterBlock File FS : Type} {fsm : FsManager MasterBlock File FS}.

Lemma NewDeltaDataBlock_self (self : RowSetMetadata) (b : BlockId) (fs : FS) :
  (NewDeltaDataBlock self b fs).1.2 = self.
Proof. unfold NewDeltaDataBlock. by destruct (CreateNewBlock fs b) as [[s b'] fs']. Qed.

Lemma call_delta_blocks (c : RowSetCall) (self self' : RowSetMetadata) (fs fs' : FS) :
  call c self fs = Returns (self', fs') →
  delta_blocks_ self' = delta_blocks_ self ++ commits [c].
Proof.
  destruct c; simpl; unfold NewBloomDataBlock, NewAdHocIndexDataBlock,
    NewColumnDataBlock, OpenColumnDataBlock, OpenDeltaDataBlock, NewDeltaDataBlock;
    intros H;
    repeat match type of H with
    | context [CreateNewBlock ?a ?b] =>
        destruct (CreateNewBlock a b) as [[? ?] ?]; simpl in H
    | context [match ?x with _ => _ end] => destruct x eqn:?; simpl in H
    | context [let '(_, _) := ?x in _] => destruct x eqn:?; simpl in H
    end;
    try discriminate; inversion H; subst; simpl; by rewrite ?app_nil_r.
Qed.

Lemma commits_cons (c : RowSetCall) (cs : list RowSetCall) :
  commits (c :: cs) = commits [c] ++ commits cs.
Proof. destruct c; simpl; by rewrite ?app_nil_r. Qed.

Lemma calls_delta_blocks (cs : list RowSetCall) (self self' : RowSetMetadata) (fs fs' : FS) :
  calls cs self fs = Returns (self', fs') →
  delta_blocks_ self' = delta_blocks_ self ++ commits cs.
Proof.
  revert self fs. induction cs as [|c cs IH]; intros self fs H.
  - simpl in H. inversion H; subst. by rewrite app_nil_r.
  - simpl in H. destruct (call c self fs) as [[r1 fs1]| |] eqn:Hc; try discriminate.
    rewrite commits_cons, (IH _ _ H), (call_delta_blocks _ _ _ _ _ Hc).
    by rewrite app_assoc.
Qed.

(** C5. [NewBloomDataBlock] (and likewise [NewAdHocIndexDataBlock]) on a
    slot that is already set ends in a failed [CHECK], not in a returned
    [Status]; on an unset slot the check passes, the call returns the
    status of the store, and the slot holds the block id the store wrote,
    every other member unchanged. *)
Theorem C5_bloom_and_index_slots_are_write_once (self : RowSetMetadata) (fs : FS) :
  (IsNull (bloom_block_ self) = false → NewBloomDataBlock self fs = CheckFailure)
  ∧ (IsNull (bloom_block_ self) = true →
       ∀ s b fs', CreateNewBlock fs (bloom_block_ self) = (s, b, fs') →
       ∃ self', NewBloomDataBlock self fs = Returns (s, self', fs')
         ∧ bloom_block_ self' = b
         ∧ adhoc_index_block_ self' = adhoc_index_block_ self
         ∧ column_blocks_ self' = column_blocks_ self
         ∧ delta_blocks_ self' = delta_blocks_ self
         ∧ id_ self' = id_ self)
  ∧ (IsNull (adhoc_index_block_ self) = false →
       NewAdHocIndexDataBlock self fs = CheckFailure)
  ∧ (IsNull (adhoc_index_block_ self) = true →
       ∀ s b fs', CreateNewBlock fs (adhoc_index_block_ self) = (s, b, fs') →
       ∃ self', NewAdHocIndexDataBlock self fs = Returns (s, self', fs')
         ∧ adhoc_index_block_ self' = b
         ∧ bloom_block_ self' = bloom_block_ self
         ∧ column_blocks_ self' = column_blocks_ self
         ∧ delta_blocks_ self' = delta_blocks_ self
         ∧ id_ self' = id_ self).
Proof.
  unfold NewBloomDataBlock, NewAdHocIndexDataBlock.
  split_and!.
  - by intros ->.
  - intros -> s b fs' ->. by eexists.
  - by intros ->.
  - intros -> s b fs' ->. by eexists.
Qed.

(** C6. [NewColumnDataBlock(col_idx)] ends in a failed [CHECK] unless
    [col_idx] is the number of column blocks recorded so far.  When it is
    and the store creates the block, the call returns OK and the new id is
    the last entry of a list of length [col_idx + 1] whose earlier entries
    are the old ones; when the store fails, its status is returned and the
    object is unchanged. *)
Theorem C6_column_blocks_appended_in_order
    (self : RowSetMetadata) (col_idx : nat) (fs : FS) :
  (col_idx ≠ length (column_blocks_ self) →
     NewColumnDataBlock self col_idx fs = CheckFailure)
  ∧ (col_idx = length (column_blocks_ self) →
     ∀ b fs', CreateNewBlock fs NullBlockId = (OK, b, fs') →
     ∃ self', NewColumnDataBlock self col_idx fs = Returns (OK, self', fs')
       ∧ length (column_blocks_ self') = S col_idx
       ∧ column_blocks_ self' !! col_idx = Some b
       ∧ (∀ i, (i < col_idx)%nat → column_blocks_ self' !! i = column_blocks_ self !! i)
       ∧ column_blocks_ self' = column_blocks_ self ++ [b]
       ∧ bloom_block_ self' = bloom_block_ self
       ∧ adhoc_index_block_ self' = adhoc_index_block_ self
       ∧ delta_blocks_ self' = delta_blocks_ self
       ∧ id_ self' = id_ self)
  ∧ (col_idx = length (column_blocks_ self) →
     ∀ e b fs', CreateNewBlock fs NullBlockId = (Failed e, b, fs') →
     NewColumnDataBlock self col_idx fs = Returns (Failed e, self, fs')).
Proof.
  unfold NewColumnDataBlock. split_and!.
  - intros Hne. case_decide; congruence.
  - intros -> b fs' ->. rewrite decide_True by done. simpl.
    eexists; split; [done|]. simpl. split_and!; try done.
    + rewrite length_app. simpl. lia.
    + by rewrite lookup_app_r, Nat.sub_diag.
    + intros i Hi. by rewrite lookup_app_l.
  - intros -> e b fs' ->. by rewrite decide_True.
Qed.

(** C7. On one [RowSetMetadata], [NewDeltaDataBlock] leaves every member
    as it was and hands back the id the store wrote; [CommitDeltaDataBlock]
    returns OK and appends exactly its pair at the end of the chain,
    leaving the other members alone; and after any sequence of calls the
    chain is the starting chain followed by the committed pairs in commit
    order, so that on a freshly constructed object [delta_blocks_count()]
    is the number of commits made. *)
Theorem C7_delta_chain_is_the_commit_log
    (cs : list RowSetCall) (self self' : RowSetMetadata) (fs fs' : FS) :
  calls cs self fs = Returns (self', fs') →
  (∀ r b fs0, (NewDeltaDataBlock r b fs0).1.2 = r
      ∧ (NewDeltaDataBlock r b fs0).1.1 = (CreateNewBlock fs0 b).1)
  ∧ (∀ r id b, ∃ r', CommitDeltaDataBlock r id b = (OK, r')
      ∧ delta_blocks_ r' = delta_blocks_ r ++ [(id, b)]
      ∧ delta_blocks_count r' = S (delta_blocks_count r)
      ∧ bloom_block_ r' = bloom_block_ r
      ∧ adhoc_index_block_ r' = adhoc_index_block_ r
      ∧ column_blocks_ r' = column_blocks_ r
      ∧ id_ r' = id_ r)
  ∧ delta_blocks_ self' = delta_blocks_ self ++ commits cs
  ∧ delta_blocks_count self' = (delta_blocks_count self + length (commits cs))%nat
  ∧ (delta_blocks_ self = [] →
     delta_blocks_ self' = commits cs ∧ delta_blocks_count self' = length (commits cs)).
Proof.
  intros H. pose proof (calls_delta_blocks _ _ _ _ _ H) as Hd.
  split_and!.
  - intros r b fs0. split; [apply NewDeltaDataBlock_self|].
    unfold NewDeltaDataBlock. by destruct (CreateNewBlock fs0 b) as [[? ?] ?].
  - intros r id b. eexists. split; [done|]. unfold delta_blocks_count. simpl.
    rewrite length_app. simpl. split_and!; [done|lia|done..].
  - done.
  - unfold delta_blocks_count. by rewrite Hd, length_app.
  - intros Hnil. unfold delta_blocks_count. by rewrite Hd, Hnil.
Qed.

(** What [OpenDataBlock] returns, in terms of the store: the error of
    [OpenBlock] when the block cannot be opened, else the error of [Size],
    else the reader with its size. *)
Lemma OpenDataBlock_store (fs : FS) (b : BlockId) :
  (∀ e, OpenBlock fs b = Err e → OpenDataBlock fs b = Err e)
  ∧ (∀ reader e, OpenBlock fs b = Ok reader → Size reader = Err e →
       OpenDataBlock fs b = Err e)
  ∧ (∀ reader size, OpenBlock fs b = Ok reader → Size reader = Ok size →
       OpenDataBlock fs b = Ok (reader, size)).
Proof.
  unfold OpenDataBlock. split_and!.
  - by intros e ->.
  - by intros reader e -> ->.
  - by intros reader size -> ->.
Qed.

(** C10. For an index below [delta_blocks_count()],
    [OpenDeltaDataBlock(index)] opens the block whose id is the second
    component of the pair at that index: it returns the error of the
    store's [OpenBlock] on that block id when the store cannot open it,
    else the error of [Size] on the reader, else that reader and its
    size.  On an object built by calls on a fresh [RowSetMetadata] the
    pair at that index is the index-th committed pair.  The vector is
    read without a bounds check: at an index that is not below the count
    the read is out of range. *)
Theorem C10_OpenDeltaDataBlock_opens_the_indexed_commit
    (self : RowSetMetadata) (index : nat) (fs : FS) :
  (index < delta_blocks_count self)%nat →
  ∃ d,
    delta_blocks_ self !! index = Some d
    ∧ OpenDeltaDataBlock self index fs = Returns (OpenDataBlock fs d.2)
    ∧ (∀ e, OpenBlock fs d.2 = Err e →
         OpenDeltaDataBlock self index fs = Returns (Err e))
    ∧ (∀ reader e, OpenBlock fs d.2 = Ok reader → Size reader = Err e →
         OpenDeltaDataBlock self index fs = Returns (Err e))
    ∧ (∀ reader size, OpenBlock fs d.2 = Ok reader → Size reader = Ok size →
         OpenDeltaDataBlock self index fs = Returns (Ok (reader, size)))
    ∧ (∀ cs r0 fs0 fs1, delta_blocks_ r0 = [] →
         calls cs r0 fs0 = Returns (self, fs1) →
         commits cs !! index = Some d)
    ∧ (∀ j, (delta_blocks_count self ≤ j)%nat →
         OpenDeltaDataBlock self j fs = UndefinedBehaviour).
Proof.
  unfold delta_blocks_count, OpenDeltaDataBlock. intros Hlt.
  destruct (lookup_lt_is_Some_2 _ _ Hlt) as [d Hd].
  destruct (OpenDataBlock_store fs d.2) as (Hopen & Hsize & Hok).
  exists d. rewrite Hd. split_and!; [done|done|..].
  - intros e He. by rewrite (Hopen e He).
  - intros reader e Hr He. by rewrite (Hsize reader e Hr He).
  - intros reader size Hr Hs. by rewrite (Hok reader size Hr Hs).
  - intros cs r0 fs0 fs1 Hnil Hcalls.
    pose proof (calls_delta_blocks _ _ _ _ _ Hcalls) as Hlog.
    rewrite Hnil in Hlog. simpl in Hlog. by rewrite <- Hlog.
  - intros j Hj. by rewrite (lookup_ge_None_2 _ _ Hj).
Qed.

End RowSetFacts.

(** *** The write path on the test store *)

Lemma C5_bloom_and_index_slots_are_write_once_witness :
  IsNull (bloom_block_ rs7_bloom) = false
  ∧ NewBloomDataBlock rs7_bloom (sim_empty []) = CheckFailure
  ∧ IsNull (bloom_block_ rs7) = true
  ∧ CreateNewBlock (sim_empty []) (bloom_block_ rs7)
      = (OK, StoreBlockId 1, fs_one_block)
  ∧ (∃ self', NewBloomDataBlock rs7 (sim_empty [])
               = Returns (OK, self', fs_one_block)
       ∧ bloom_block_ self' = StoreBlockId 1
       ∧ adhoc_index_block_ self' = adhoc_index_block_ rs7
       ∧ column_blocks_ self' = column_blocks_ rs7
       ∧ delta_blocks_ self' = delta_blocks_ rs7
       ∧ id_ self' = id_ rs7).
Proof.
  split; [reflexivity|]. split.
  - apply (C5_bloom_and_index_slots_are_write_once rs7_bloom (sim_empty [])).
    reflexivity.
  - split; [reflexivity|]. split; [reflexivity|].
    apply (C5_bloom_and_index_slots_are_write_once rs7 (sim_empty []));
      reflexivity.
Defined.

Lemma C6_column_blocks_appended_in_order_witness :
  (2%nat ≠ length (column_blocks_ rs7))
  ∧ NewColumnDataBlock rs7 2 (sim_empty []) = CheckFailure
  ∧ 0%nat = length (column_blocks_ rs7)
  ∧ CreateNewBlock (sim_empty []) NullBlockId
      = (OK, StoreBlockId 1, fs_one_block)
  ∧ (∃ self', NewColumnDataBlock rs7 0 (sim_empty [])
               = Returns (OK, self', fs_one_block)
       ∧ length (column_blocks_ self') = 1%nat
       ∧ column_blocks_ self' !! 0%nat = Some (StoreBlockId 1)
       ∧ (∀ i, (i < 0)%nat → column_blocks_ self' !! i = column_blocks_ rs7 !! i)
       ∧ column_blocks_ self' = column_blocks_ rs7 ++ [StoreBlockId 1]
       ∧ bloom_block_ self' = bloom_block_ rs7
       ∧ adhoc_index_block_ self' = adhoc_index_block_ rs7
       ∧ delta_blocks_ self' = delta_blocks_ rs7
       ∧ id_ self' = id_ rs7).
Proof.
  split; [simpl; lia|]. split.
  - apply (C6_column_blocks_appended_in_order rs7 2 (sim_empty [])). simpl; lia.
  - split; [reflexivity|]. split; [reflexivity|].
    apply (C6_column_blocks_appended_in_order rs7 0 (sim_empty [])); reflexivity.
Defined.

Lemma C7_delta_chain_is_the_commit_log_witness :
  calls two_commits rs7 (sim_empty []) = Returns (rs7_two_deltas, fs_two_blocks)
  ∧ delta_blocks_ rs7_two_deltas = delta_blocks_ rs7 ++ commits two_commits
  ∧ delta_blocks_count rs7_two_deltas
      = (delta_blocks_count rs7 + length (commits two_commits))%nat.
Proof.
  assert (Hrun : calls two_commits rs7 (sim_empty [])
                 = Returns (rs7_two_deltas, fs_two_blocks)) by reflexivity.
  split; [exact Hrun|].
  destruct (C7_delta_chain_is_the_commit_log two_commits rs7 rs7_two_deltas
              (sim_empty []) fs_two_blocks Hrun) as (_ & _ & H1 & H2 & _).
  exact (conj H1 H2).
Defined.

Lemma C10_OpenDeltaDataBlock_opens_the_indexed_commit_witness :
  (1 < delta_blocks_count rs7_two_deltas)%nat
  ∧ delta_blocks_ rs7_two_deltas !! 1%nat = Some (1, StoreBlockId 2)
  ∧ OpenBlock fs_two_blocks (StoreBlockId 2) = Ok (2%N, 0)
  ∧ Size (FsManager := SimFsManager) (2%N, 0) = Ok 0
  ∧ OpenDeltaDataBlock rs7_two_deltas 1 fs_two_blocks = Returns (Ok ((2%N, 0), 0))
  ∧ commits two_commits !! 1%nat = Some (1, StoreBlockId 2).
Proof.
  assert (Hlt : (1 < delta_blocks_count rs7_two_deltas)%nat)
    by (unfold delta_blocks_count, rs7_two_deltas; simpl; lia).
  assert (Hrun : calls two_commits rs7 (sim_empty [])
                 = Returns (rs7_two_deltas, fs_two_blocks)) by reflexivity.
  destruct (C10_OpenDeltaDataBlock_opens_the_indexed_commit
              rs7_two_deltas 1 fs_two_blocks Hlt)
    as (d & Hd & _ & _ & _ & Hok & Hlog & _).
  assert (d = (1, StoreBlockId 2)) as -> by (simpl in Hd; by inversion Hd).
  split; [exact Hlt|]. split; [exact Hd|].
  split; [reflexivity|]. split; [reflexivity|].
  split; [exact (Hok (2%N, 0) 0 eq_refl eq_refl)|].
  exact (Hlog two_commits rs7 (sim_empty []) fs_two_blocks eq_refl Hrun).
Defined.

Example OpenDeltaDataBlock_second_commit :
  OpenDeltaDataBlock (fsm := SimFsManager) rs7_two_deltas 1 fs_two_blocks
  = Returns (Ok ((2%N, 0), 0)).
Proof. reflexivity. Qed.

(** ** The rowset collection of a tablet *)

Section TabletFacts.
Context {MasterBlock File FS : Type} {fsm : FsManager MasterBlock File FS}.

Implicit Types (w : World MasterBlock FS) (t : TabletMetadata MasterBlock).
Implicit Types (heap : gmap addr RowSetMetadata) (ids : gset Z).

Lemma remove_rowsets_filter heap ids (l kept : list addr) :
  remove_rowsets heap ids l = Some kept →
  kept = filter (λ p, ¬ rowset_id_in heap ids p) l.
Proof.
  revert kept. induction l as [|p l IH]; intros kept H; simpl in H.
  - by inversion H.
  - destruct (heap !! p) as [r|] eqn:Hp; [|done].
    destruct (remove_rowsets heap ids l) as [k|]; [|done].
    specialize (IH k eq_refl). subst k.
    assert (rowset_id_in heap ids p ↔ to_uint32 (id_ r) ∈ ids) as Hiff
      by (unfold rowset_id_in; by rewrite Hp).
    rewrite filter_cons.
    destruct (decide (to_uint32 (id_ r) ∈ ids)) as [Hin|Hin]; inversion H; subst.
    + rewrite decide_False; [done|]. intros Hn. by apply Hn, Hiff.
    + rewrite decide_True; [done|]. by rewrite Hiff.
Qed.

Lemma remove_rowsets_absent heap ids (absent : gset Z) (l : list addr) :
  (∀ p r, p ∈ l → heap !! p = Some r → to_uint32 (id_ r) ∉ absent) →
  remove_rowsets heap (ids ∪ absent) l = remove_rowsets heap ids l.
Proof.
  induction l as [|p l IH]; intros Habs; simpl; [done|].
  destruct (heap !! p) as [r|] eqn:Hp; [|done].
  rewrite IH by (intros q rq Hq; apply Habs; by right).
  clear IH.
  destruct (remove_rowsets heap ids l) as [k|]; [|done].
  assert (to_uint32 (id_ r) ∉ absent) as Hr by (eapply Habs; [left|done]).
  destruct (decide (to_uint32 (id_ r) ∈ ids)) as [Hin|Hin].
  - rewrite decide_True; [done|]. apply elem_of_union. by left.
  - rewrite decide_False; [done|]. rewrite elem_of_union. tauto.
Qed.

(** What a returning [UpdateAndFlush] has done. *)
Lemma UpdateAndFlush_inv (this : addr) ids (to_add : list addr) w (s : Status) w' :
  UpdateAndFlush this ids to_add w = Returns (s, w') →
  ∃ t kept rs s0 fs',
    tablets w !! this = Some t
    ∧ remove_rowsets (rowset_objs w) ids (rowsets_ t) = Some kept
    ∧ deref_all (rowset_objs w) (kept ++ to_add) = Some rs
    ∧ WriteSuperBlock (fs_of w) (master_block_ t) (ToSuperBlockPB t rs) = (s0, fs')
    ∧ s = s0
    ∧ w' = if ok s0
           then put_tablet this (set_rowsets (kept ++ to_add) t) (set_fs fs' w)
           else set_fs fs' w.
Proof.
  unfold UpdateAndFlush. intros H.
  destruct (tablets w !! this) as [t|]; [|done].
  destruct (remove_rowsets _ _ _) as [kept|] eqn:Hrm; [|done].
  destruct (deref_all _ _) as [rs|] eqn:Hd; [|done].
  destruct (WriteSuperBlock _ _ _) as [s0 fs'] eqn:Hw.
  exists t, kept, rs, s0, fs'.
  destruct s0; simpl in *; inversion H; subst; done.
Qed.

Lemma filter_keeps_all {A} (P : A → Prop) `{!∀ x, Decision (P x)} (l : list A) :
  (∀ x, x ∈ l → P x) → filter P l = l.
Proof.
  induction l as [|x l IH]; intros Hall; [done|].
  rewrite filter_cons, decide_True by (apply Hall; left).
  f_equal. apply IH. intros y Hy. apply Hall. by right.
Qed.

(** C3. When [UpdateAndFlush] returns OK, the collection of the tablet is
    the old collection without the rowsets whose id is in [to_remove], in
    their old order, followed by [to_add]; the rowset objects themselves
    are untouched.  Ids that no rowset of the collection carries change
    nothing: adding them to [to_remove] gives the same call, and a
    [to_remove] made only of such ids removes nothing.  Removing the same
    ids once more changes nothing either, as long as [to_add] brought in
    no rowset with such an id. *)
Theorem C3_UpdateAndFlush_removes_and_appends
    (this : addr) (to_remove : gset Z) (to_add : list addr) w w' :
  UpdateAndFlush this to_remove to_add w = Returns (OK, w') →
  ∃ t t',
    tablets w !! this = Some t
    ∧ tablets w' !! this = Some t'
    ∧ rowsets_ t' =
        filter (λ p, ¬ rowset_id_in (rowset_objs w) to_remove p) (rowsets_ t) ++ to_add
    ∧ rowset_objs w' = rowset_objs w
    ∧ (∀ absent : gset Z,
         (∀ p r, p ∈ rowsets_ t → rowset_objs w !! p = Some r →
                 to_uint32 (id_ r) ∉ absent) →
         UpdateAndFlush this (to_remove ∪ absent) to_add w
           = UpdateAndFlush this to_remove to_add w)
    ∧ ((∀ p, p ∈ rowsets_ t → ¬ rowset_id_in (rowset_objs w) to_remove p) →
         rowsets_ t' = rowsets_ t ++ to_add)
    ∧ (∀ w'',
         (∀ p, p ∈ to_add → ¬ rowset_id_in (rowset_objs w) to_remove p) →
         UpdateAndFlush this to_remove [] w' = Returns (OK, w'') →
         rowsets this w'' = rowsets this w').
Proof.
  intros H.
  destruct (UpdateAndFlush_inv _ _ _ _ _ _ H)
    as (t & kept & rs & s0 & fs' & Ht & Hrm & Hd & Hw & <- & ->).
  simpl.
  pose proof (remove_rowsets_filter _ _ _ _ Hrm) as Hk.
  exists t, (set_rowsets (kept ++ to_add) t).
  split_and!; try done.
  - apply lookup_insert_eq.
  - simpl. by rewrite Hk.
  - intros absent Habs. unfold UpdateAndFlush. rewrite Ht.
    by rewrite remove_rowsets_absent.
  - intros Hnone. simpl. rewrite Hk. f_equal. by apply filter_keeps_all.
  - intros w'' Hadd H2.
    destruct (UpdateAndFlush_inv _ _ _ _ _ _ H2)
      as (t1 & kept1 & rs1 & s1 & fs1 & Ht1 & Hrm1 & _ & _ & <- & ->).
    simpl in *. rewrite lookup_insert_eq in Ht1. inversion Ht1; subst t1. clear Ht1.
    simpl in Hrm1. apply remove_rowsets_filter in Hrm1.
    rewrite filter_app, (filter_keeps_all _ to_add Hadd), Hk in Hrm1.
    rewrite list_filter_filter_l in Hrm1 by done. rewrite <- Hk in Hrm1. subst kept1.
    unfold rowsets. simpl. rewrite !lookup_insert_eq. simpl. by rewrite app_nil_r.
Qed.

(** *** Descriptors and hydration *)

Lemma block_of_to_pb (b : BlockId) : block_of_pb (block_to_pb b) = b.
Proof. by destruct b. Qed.

Lemma block_to_pb_not_null (b b' : BlockId) :
  block_to_pb b = Some b' → b' = b ∧ IsNull b' = false.
Proof. destruct b; simpl; [done|]. by intros [= <-]. Qed.

Lemma Load_ToProtobuf (that : addr) (r : RowSetMetadata) :
  block_lists (RowSetMetadata_Load (new_RowSetMetadata that (pb_id (ToProtobuf r)))
                 (ToProtobuf r)).2
  = block_lists r.
Proof. unfold block_lists. simpl. by rewrite !block_of_to_pb. Qed.

Lemma load_rowsets_spec (that : addr) (pbs : list RowSetDataPB) heap ps heap' :
  load_rowsets that pbs heap = (ps, heap') →
  deref_all heap' ps
    = Some ((λ pb, (RowSetMetadata_Load (new_RowSetMetadata that (pb_id pb)) pb).2) <$> pbs)
  ∧ (∀ q x, heap !! q = Some x → heap' !! q = Some x).
Proof.
  revert heap ps heap'. induction pbs as [|pb pbs IH]; intros heap ps heap' H.
  - simpl in H. inversion H; subst. done.
  - simpl in H.
    destruct (load_rowsets that pbs _) as [ps1 heap1] eqn:Hl.
    inversion H; subst. clear H.
    destruct (IH _ _ _ Hl) as [Hd Hkeep]. split.
    + unfold deref_all in *. rewrite fmap_cons. apply mapM_Some_2.
      constructor; [|by apply mapM_Some_1].
      apply Hkeep. by rewrite lookup_insert_eq.
    + intros q x Hq. apply Hkeep.
      rewrite lookup_insert_ne; [done|].
      intros <-. pose proof (is_fresh (dom heap)) as Hf.
      apply Hf, elem_of_dom. by eexists.
Qed.

(** [Load] succeeds whenever the superblock reads back, and hydrates one
    object per descriptor. *)
Lemma Load_Ok (that : addr) w t2 (pb : TabletSuperBlockPB) :
  tablets w !! that = Some t2 →
  ReadSuperBlock (fs_of w) (master_block_ t2) = Ok pb →
  ∃ w2 ps,
    TabletMetadata_Load that w = Returns (OK, w2)
    ∧ tablets w2 = <[that := set_rowsets ps t2]> (tablets w)
    ∧ fs_of w2 = fs_of w
    ∧ deref_all (rowset_objs w2) ps
        = Some ((λ rpb, (RowSetMetadata_Load
                           (new_RowSetMetadata that (pb_id rpb)) rpb).2) <$> pb_rowsets pb).
Proof.
  intros Ht Hr. unfold TabletMetadata_Load. rewrite Ht, Hr.
  destruct (load_rowsets that (pb_rowsets pb) (rowset_objs w)) as [ps heap'] eqn:Hl.
  destruct (load_rowsets_spec _ _ _ _ _ Hl) as [Hd _].
  by eexists _, ps.
Qed.

(** After a flush that returned OK the superblock describes the
    collection in memory. *)
Lemma flush_durable `{!FsManagerLaws fsm} (this : addr) ids (to_add : list addr) w w' :
  UpdateAndFlush this ids to_add w = Returns (OK, w') →
  ∃ t t' rs,
    tablets w !! this = Some t
    ∧ tablets w' !! this = Some t'
    ∧ master_block_ t' = master_block_ t
    ∧ rowset_objs w' = rowset_objs w
    ∧ deref_all (rowset_objs w') (rowsets_ t') = Some rs
    ∧ ReadSuperBlock (fs_of w') (master_block_ t) = Ok (ToSuperBlockPB t rs).
Proof.
  intros H.
  destruct (UpdateAndFlush_inv _ _ _ _ _ _ H)
    as (t & kept & rs & s0 & fs' & Ht & Hrm & Hd & Hw & <- & ->).
  simpl. exists t, (set_rowsets (kept ++ to_add) t), rs.
  rewrite lookup_insert_eq. split_and!; try done.
  simpl. by eapply superblock_write_read.
Qed.

(** C1. When [UpdateAndFlush] returns a failure, the tablet objects and
    the rowset objects are the ones from before the call, so [rowsets()]
    is unchanged; every superblock reads as it did before the call; and
    [Load()] on a fresh [TabletMetadata], whatever master block it points
    at, gives the same status and builds the same objects as it would
    have given before the call. *)
Theorem C1_failed_UpdateAndFlush_changes_nothing `{!FsManagerLaws fsm}
    (this : addr) (to_remove : gset Z) (to_add : list addr) w (e : Error) w' :
  UpdateAndFlush this to_remove to_add w = Returns (Failed e, w') →
  rowsets this w' = rowsets this w
  ∧ tablets w' = tablets w
  ∧ rowset_objs w' = rowset_objs w
  ∧ (∀ mb, ReadSuperBlock (fs_of w') mb = ReadSuperBlock (fs_of w) mb)
  ∧ (∀ oid mb start_key end_key,
       same_view (load_fresh oid mb start_key end_key w')
                 (load_fresh oid mb start_key end_key w)).
Proof.
  intros H.
  destruct (UpdateAndFlush_inv _ _ _ _ _ _ H)
    as (t & kept & rs & s0 & fs' & Ht & Hrm & Hd & Hw & <- & ->).
  simpl.
  assert (∀ mb, ReadSuperBlock fs' mb = ReadSuperBlock (fs_of w) mb) as Hread
    by (intros mb; by eapply superblock_failed_write).
  split_and!; try done.
  intros oid mb sk ek.
  unfold load_fresh, bind, alloc_tablet, TabletMetadata_Load, ret. simpl.
  rewrite !lookup_insert_eq. simpl. rewrite Hread.
  destruct (ReadSuperBlock (fs_of w) mb) as [pb|e']; simpl; [|done].
  by destruct (load_rowsets _ _ _) as [ps heap'].
Qed.

Lemma hydrate_all_block_lists (that : addr) (rs : list RowSetMetadata) :
  block_lists <$>
    ((λ rpb, (RowSetMetadata_Load (new_RowSetMetadata that (pb_id rpb)) rpb).2)
       <$> (ToProtobuf <$> rs))
  = block_lists <$> rs.
Proof.
  rewrite <- !list_fmap_compose. apply list_fmap_ext.
  intros i r _. apply Load_ToProtobuf.
Qed.

(** C2. Let [rs] point to a rowset in any state the write path can leave
    it in.  When [UpdateAndFlush] with [to_add = [rs]] returns OK, [Load()]
    on a fresh [TabletMetadata] pointed at the same master block returns OK,
    and the last rowset it rebuilds has the id and the bloom, ad-hoc
    index, column and delta block ids of [rs] (an unset slot is unset
    again); in the superblock an unset slot is an absent field and a set
    slot is a present, non-null id; and the whole rebuilt collection
    carries the block ids of the flushed collection, rowset by rowset. *)
Theorem C2_flushed_rowset_round_trips `{!FsManagerLaws fsm}
    (this rs : addr) (to_remove : gset Z) w w1 (r : RowSetMetadata)
    (oid start_key end_key : string) :
  rowset_objs w !! rs = Some r →
  UpdateAndFlush this to_remove [rs] w = Returns (OK, w1) →
  ∃ t that w2 ps p' r' pb rpb,
    tablets w !! this = Some t
    ∧ load_fresh oid (master_block_ t) start_key end_key w1 = Returns ((that, OK), w2)
    ∧ rowsets that w2 = Some ps
    ∧ last ps = Some p'
    ∧ rowset_objs w2 !! p' = Some r'
    ∧ id_ r' = id_ r
    ∧ bloom_block_ r' = bloom_block_ r
    ∧ adhoc_index_block_ r' = adhoc_index_block_ r
    ∧ column_blocks_ r' = column_blocks_ r
    ∧ delta_blocks_ r' = delta_blocks_ r
    ∧ ReadSuperBlock (fs_of w1) (master_block_ t) = Ok pb
    ∧ last (pb_rowsets pb) = Some rpb
    ∧ pb_bloom_block rpb
        = (if IsNull (bloom_block_ r) then None else Some (bloom_block_ r))
    ∧ pb_adhoc_index_block rpb
        = (if IsNull (adhoc_index_block_ r) then None else Some (adhoc_index_block_ r))
    ∧ ∃ flushed rebuilt,
        rowsets this w1 ≫= deref_all (rowset_objs w1) = Some flushed
        ∧ deref_all (rowset_objs w2) ps = Some rebuilt
        ∧ block_lists <$> rebuilt = block_lists <$> flushed.
Proof.
  intros Hrs H.
  destruct (UpdateAndFlush_inv _ _ _ _ _ _ H)
    as (t & kept & rs0 & s0 & fs' & Ht & Hrm & Hd & Hw & <- & ->).
  simpl.
  pose proof (superblock_write_read _ _ _ _ Hw) as Hread.
  (* the flushed objects end with [r] *)
  destruct (proj1 (Forall2_app_inv_l _ _ _ _) (mapM_Some_1 _ _ _ Hd))
    as (k1 & k2 & Hk1 & Hk2 & ->).
  inversion Hk2 as [|? r0 ? ? Hr0 Hnil]; subst. inversion Hnil; subst. clear Hk2 Hnil.
  rewrite Hrs in Hr0. inversion Hr0; subst r0. clear Hr0.
  (* the load on the fresh object *)
  set (w1 := put_tablet this (set_rowsets (kept ++ [rs]) t) (set_fs fs' w)) in *.
  set (that := fresh (dom (tablets w1))).
  set (w1a := put_tablet that
                (new_TabletMetadata oid (master_block_ t) start_key end_key) w1).
  destruct (Load_Ok that w1a
              (new_TabletMetadata oid (master_block_ t) start_key end_key)
              (ToSuperBlockPB t (k1 ++ [r])))
    as (w2 & ps & HL & Htab & Hfs & Hobjs).
  { unfold w1a. simpl. apply lookup_insert_eq. }
  { done. }
  simpl in Hobjs.
  pose proof (Forall2_last _ _ _ (mapM_Some_1 _ _ _ Hobjs)) as Hlast.
  rewrite !fmap_last, last_snoc in Hlast. simpl in Hlast.
  inversion Hlast as [p' r' Hp' Hlp Hlr|]; subst r'.
  exists t, that, w2, ps, p'. eexists.
  exists (ToSuperBlockPB t (k1 ++ [r])), (ToProtobuf r).
  split_and!; [done| |..|done|]; try exact Hp'; simpl;
    rewrite ?block_of_to_pb; try done.
  - unfold load_fresh, bind, alloc_tablet, ret. fold that. fold w1a. by rewrite HL.
  - unfold rowsets. by rewrite Htab, lookup_insert_eq.
  - by rewrite fmap_last, last_snoc.
  - exists (k1 ++ [r]). eexists.
    split_and!; [|exact Hobjs|exact (hydrate_all_block_lists that (k1 ++ [r]))].
    unfold rowsets, w1. simpl. rewrite lookup_insert_eq. simpl. exact Hd.
Qed.

(** *** Delta commits and the superblock *)

Lemma remove_rowsets_nothing heap (l kept : list addr) :
  remove_rowsets heap ∅ l = Some kept → kept = l.
Proof.
  intros H. rewrite (remove_rowsets_filter _ _ _ _ H). clear H.
  induction l as [|p l IH]; [done|].
  rewrite filter_cons, decide_True, IH; [done|].
  unfold rowset_id_in. destruct (heap !! p); [apply not_elem_of_empty|tauto].
Qed.

(** C8, as the code has it.  [CommitDeltaDataBlock] on a rowset returns
    OK and appends the pair to the chain of that object; it leaves the
    store and every tablet object as they were, so it writes no
    superblock.  [RowSetMetadata::Flush] is the [Flush] of the owning
    tablet; when it is called after the commit and returns OK, the
    superblock read through the master block describes the collection in
    memory, and for a rowset registered with the tablet it lists the
    chain with the committed pair at its end. *)
Theorem C8_commit_is_durable_after_Flush `{!FsManagerLaws fsm}
    (self : addr) w (r : RowSetMetadata) (id : Z) (b : BlockId) :
  rowset_objs w !! self = Some r →
  ∃ w1,
    ptr_CommitDeltaDataBlock self id b w = Returns (OK, w1)
    ∧ fs_of w1 = fs_of w
    ∧ tablets w1 = tablets w
    ∧ rowset_objs w1
        = <[self := set_delta_blocks (delta_blocks_ r ++ [(id, b)]) r]> (rowset_objs w)
    ∧ RowSetMetadata_Flush self w1 = TabletMetadata_Flush (tablet_metadata_ r) w1
    ∧ ∀ w2, RowSetMetadata_Flush self w1 = Returns (OK, w2) →
        ∃ t flushed,
          tablets w !! tablet_metadata_ r = Some t
          ∧ rowsets (tablet_metadata_ r) w2 = Some (rowsets_ t)
          ∧ deref_all (rowset_objs w2) (rowsets_ t) = Some flushed
          ∧ ReadSuperBlock (fs_of w2) (master_block_ t) = Ok (ToSuperBlockPB t flushed)
          ∧ (self ∈ rowsets_ t →
             ∃ rpb, rpb ∈ pb_rowsets (ToSuperBlockPB t flushed)
               ∧ pb_id rpb = id_ r
               ∧ pb_delta_blocks rpb = delta_blocks_ r ++ [(id, b)]).
Proof.
  intros Hr.
  set (r1 := set_delta_blocks (delta_blocks_ r ++ [(id, b)]) r).
  exists (put_rowset self r1 (set_fs (fs_of w) w)).
  assert (ptr_CommitDeltaDataBlock self id b w
          = Returns (OK, put_rowset self r1 (set_fs (fs_of w) w))) as Hc
    by (unfold ptr_CommitDeltaDataBlock, on_rowset; by rewrite Hr).
  assert (RowSetMetadata_Flush self (put_rowset self r1 (set_fs (fs_of w) w))
          = TabletMetadata_Flush (tablet_metadata_ r)
              (put_rowset self r1 (set_fs (fs_of w) w))) as Hf
    by (unfold RowSetMetadata_Flush; simpl; by rewrite lookup_insert_eq).
  split_and!; try done.
  intros w2 H2. rewrite Hf in H2. unfold TabletMetadata_Flush in H2.
  destruct (UpdateAndFlush_inv _ _ _ _ _ _ H2)
    as (t & kept & rs & s0 & fs' & Ht & Hrm & Hd & Hw & <- & ->).
  simpl in *. apply remove_rowsets_nothing in Hrm. subst kept.
  rewrite app_nil_r in *.
  exists t, rs. split_and!; try done.
  - unfold rowsets. simpl. by rewrite lookup_insert_eq.
  - by eapply superblock_write_read.
  - intros Hin. apply list_elem_of_lookup in Hin as [i Hi].
    destruct (Forall2_lookup_l _ _ _ _ _ (mapM_Some_1 _ _ _ Hd) Hi) as (y & Hy & Hsy).
    rewrite lookup_insert_eq in Hsy. inversion Hsy; subst y.
    exists (ToProtobuf r1). split; [|done].
    simpl. apply list_elem_of_fmap. exists r1. split; [done|].
    apply list_elem_of_lookup. by exists i.
Qed.

End TabletFacts.

(** ** Rowset ids *)










Section RowSetIds.
Context {MasterBlock File FS : Type} {fsm : FsManager MasterBlock File FS}.

Implicit Types (w : World MasterBlock FS) (t : TabletMetadata MasterBlock).








End RowSetIds.

(** *** The scenario on the test store *)

#[global] Instance SimFsManager_laws : FsManagerLaws SimFsManager.
Proof.
  split.
  - intros fs mb pb fs'. simpl. unfold sim_WriteSuperBlock, sim_ReadSuperBlock.
    destruct (sim_faults fs) as [|[] faults]; intros [= <-]; simpl;
      by rewrite lookup_insert_eq.
  - intros fs mb pb e fs' mb'. simpl. unfold sim_WriteSuperBlock, sim_ReadSuperBlock.
    destruct (sim_faults fs) as [|[] faults]; intros [= <- <-]; done.
Qed.

(** C8 as stated fails: after a commit on a registered rowset nothing has
    been flushed.  The chain in memory holds the committed pair, the
    store is the one from before the commit, and the superblock still
    lists an empty chain for the rowset. *)
Lemma C8_counterexample :
  rowsets 1%positive w_flushed = Some [1%positive]
  ∧ ptr_CommitDeltaDataBlock 1%positive 0 (StoreBlockId 5)
      (world_after (rowset_call 1%positive (CallNewDeltaDataBlock NullBlockId)) w_flushed)
    = Returns (OK, w_committed)
  ∧ delta_blocks_ <$> rowset_objs w_committed !! 1%positive
    = Some [(0, StoreBlockId 5)]
  ∧ fs_of w_committed
    = fs_of (world_after (rowset_call 1%positive (CallNewDeltaDataBlock NullBlockId))
               w_flushed)
  ∧ durable_delta_chains (fs_of w_committed) "mb" = Some [[]]
  ∧ durable_delta_chains (fs_of w_committed) "mb" ≠ Some [[(0, StoreBlockId 5)]].
Proof. vm_compute. split_and!; done. Qed.


Lemma C1_failed_UpdateAndFlush_changes_nothing_witness :
  UpdateAndFlush 1%positive {[0]} [] w_faulty = Returns (Failed IOError, w_failed)
  ∧ rowsets 1%positive w_failed = rowsets 1%positive w_faulty
  ∧ tablets w_failed = tablets w_faulty
  ∧ rowset_objs w_failed = rowset_objs w_faulty
  ∧ (∀ mb, ReadSuperBlock (fs_of w_failed) mb = ReadSuperBlock (fs_of w_faulty) mb)
  ∧ (∀ oid mb start_key end_key,
       same_view (load_fresh oid mb start_key end_key w_failed)
                 (load_fresh oid mb start_key end_key w_faulty)).
Proof.
  assert (UpdateAndFlush 1%positive {[0]} [] w_faulty
          = Returns (Failed IOError, w_failed)) as Hfail by (vm_compute; reflexivity).
  split; [exact Hfail|].
  exact (C1_failed_UpdateAndFlush_changes_nothing 1%positive {[0]} []
           w_faulty IOError w_failed Hfail).
Defined.

Lemma C2_flushed_rowset_round_trips_witness :
  rowset_objs w_populated !! 1%positive = Some rs_populated
  ∧ UpdateAndFlush 1%positive ∅ [1%positive] w_populated = Returns (OK, w_flushed)
  ∧ ∃ t that w2 ps p' r' pb rpb,
      tablets w_populated !! 1%positive = Some t
      ∧ load_fresh "tablet-1" (master_block_ t) "a" "m" w_flushed
          = Returns ((that, OK), w2)
      ∧ rowsets that w2 = Some ps
      ∧ last ps = Some p'
      ∧ rowset_objs w2 !! p' = Some r'
      ∧ id_ r' = id_ rs_populated
      ∧ bloom_block_ r' = bloom_block_ rs_populated
      ∧ adhoc_index_block_ r' = adhoc_index_block_ rs_populated
      ∧ column_blocks_ r' = column_blocks_ rs_populated
      ∧ delta_blocks_ r' = delta_blocks_ rs_populated
      ∧ ReadSuperBlock (fs_of w_flushed) (master_block_ t) = Ok pb
      ∧ last (pb_rowsets pb) = Some rpb
      ∧ pb_bloom_block rpb
          = (if IsNull (bloom_block_ rs_populated) then None
             else Some (bloom_block_ rs_populated))
      ∧ pb_adhoc_index_block rpb
          = (if IsNull (adhoc_index_block_ rs_populated) then None
             else Some (adhoc_index_block_ rs_populated))
      ∧ ∃ flushed rebuilt,
          rowsets 1%positive w_flushed ≫= deref_all (rowset_objs w_flushed) = Some flushed
          ∧ deref_all (rowset_objs w2) ps = Some rebuilt
          ∧ block_lists <$> rebuilt = block_lists <$> flushed.
Proof.
  assert (rowset_objs w_populated !! 1%positive = Some rs_populated) as Hrs
    by (vm_compute; reflexivity).
  assert (UpdateAndFlush 1%positive ∅ [1%positive] w_populated
          = Returns (OK, w_flushed)) as Hflush by (vm_compute; reflexivity).
  split; [exact Hrs|]. split; [exact Hflush|].
  exact (C2_flushed_rowset_round_trips 1%positive 1%positive ∅ w_populated w_flushed
           rs_populated "tablet-1" "a" "m" Hrs Hflush).
Defined.

Lemma C3_UpdateAndFlush_removes_and_appends_witness :
  UpdateAndFlush 1%positive {[0; 7]} [2%positive] w_second = Returns (OK, w_replaced)
  ∧ rowsets 1%positive w_second = Some [1%positive]
  ∧ rowsets 1%positive w_replaced = Some [2%positive]
  ∧ ∃ t t',
      tablets w_second !! 1%positive = Some t
      ∧ tablets w_replaced !! 1%positive = Some t'
      ∧ rowsets_ t' =
          filter (λ p, ¬ rowset_id_in (rowset_objs w_second) {[0; 7]} p) (rowsets_ t)
            ++ [2%positive]
      ∧ rowset_objs w_replaced = rowset_objs w_second.
Proof.
  assert (UpdateAndFlush 1%positive {[0; 7]} [2%positive] w_second
          = Returns (OK, w_replaced)) as Hok by (vm_compute; reflexivity).
  split; [exact Hok|]. split; [vm_compute; reflexivity|].
  split; [vm_compute; reflexivity|].
  destruct (C3_UpdateAndFlush_removes_and_appends 1%positive {[0; 7]} [2%positive]
              w_second w_replaced Hok) as (t & t' & Ht & Ht' & Hrs & Hobjs & _).
  exists t, t'. exact (conj Ht (conj Ht' (conj Hrs Hobjs))).
Defined.


Lemma C8_commit_is_durable_after_Flush_witness :
  rowset_objs w_flushed !! 1%positive = Some rs_populated
  ∧ ∃ w1,
      ptr_CommitDeltaDataBlock 1%positive 0 (StoreBlockId 5) w_flushed = Returns (OK, w1)
      ∧ fs_of w1 = fs_of w_flushed
      ∧ tablets w1 = tablets w_flushed
      ∧ rowset_objs w1
          = <[1%positive := set_delta_blocks
                (delta_blocks_ rs_populated ++ [(0, StoreBlockId 5)]) rs_populated]>
              (rowset_objs w_flushed)
      ∧ RowSetMetadata_Flush 1%positive w1
          = TabletMetadata_Flush (tablet_metadata_ rs_populated) w1
      ∧ ∀ w2, RowSetMetadata_Flush 1%positive w1 = Returns (OK, w2) →
          ∃ t flushed,
            tablets w_flushed !! tablet_metadata_ rs_populated = Some t
            ∧ rowsets (tablet_metadata_ rs_populated) w2 = Some (rowsets_ t)
            ∧ deref_all (rowset_objs w2) (rowsets_ t) = Some flushed
            ∧ ReadSuperBlock (fs_of w2) (master_block_ t) = Ok (ToSuperBlockPB t flushed)
            ∧ (1%positive ∈ rowsets_ t →
               ∃ rpb, rpb ∈ pb_rowsets (ToSuperBlockPB t flushed)
                 ∧ pb_id rpb = id_ rs_populated
                 ∧ pb_delta_blocks rpb
                     = delta_blocks_ rs_populated ++ [(0, StoreBlockId 5)]).
Proof.
  assert (rowset_objs w_flushed !! 1%positive = Some rs_populated) as Hrs
    by (vm_compute; reflexivity).
  split; [exact Hrs|].
  exact (C8_commit_is_durable_after_Flush 1%positive w_flushed rs_populated
           0 (StoreBlockId 5) Hrs).
Defined.

(** ** Concurrent commits *)

Lemma set_delta_blocks_same (r : RowSetMetadata) :
  set_delta_blocks (delta_blocks_ r ++ []) r = r.
Proof. destruct r. unfold set_delta_blocks. simpl. by rewrite app_nil_r. Qed.

Lemma set_delta_blocks_twice (l l' : list (Z * BlockId)) (r : RowSetMetadata) :
  set_delta_blocks l (set_delta_blocks l' r) = set_delta_blocks l r.
Proof. done. Qed.

Lemma same_rowset_inv_start (objs0 : gmap addr RowSetMetadata) (a : addr)
    (r0 : RowSetMetadata) (id1 id2 : Z) (b1 b2 : BlockId) :
  objs0 !! a = Some r0 →
  same_rowset_inv objs0 a r0 (id1, b1) (id2, b2)
    (two_commits_start objs0 a id1 b1 a id2 b2).
Proof.
  intros Hr0. split; simpl; try done.
  exists []. rewrite set_delta_blocks_same, insert_id by done. done.
Qed.

Lemma same_rowset_inv_step (objs0 : gmap addr RowSetMetadata) (a : addr)
    (r0 : RowSetMetadata) (p1 p2 : Z * BlockId) (who : ThreadId) (c c' : CommitConfig) :
  same_rowset_inv objs0 a r0 p1 p2 c →
  sched_step who c = Some c' →
  same_rowset_inv objs0 a r0 p1 p2 c'.
Proof.
  intros [S1 S2 P1 P2 Ex L (log & Ho & Hlog & Hs1 & Hs2) St1 St2] Hstep.
  destruct c as [objs locks [s1 i1 k1 pc1] [s2 i2 k2 pc2]].
  unfold commit_pair in *. simpl in *. subst s1 s2 p1 p2 objs locks.
  unfold sched_step, commit_step in Hstep. simpl in Hstep.
  destruct who, pc1, pc2; simpl in *; try discriminate;
    rewrite ?lookup_insert_eq in Hstep;
    repeat case_decide; try discriminate;
    try (exfalso; match goal with
                  | H : _ ∉ {[_]} |- _ => by apply H, elem_of_singleton
                  end);
    inversion Hstep; subst; clear Hstep.
  all: repeat match goal with
       | H : ∀ seen, AtPushBackWrite ?x = AtPushBackWrite seen → _ |- _ =>
           specialize (H x eq_refl); subst
       end.
  all: split; simpl; try done;
    try apply union_empty_r_L; try apply difference_diag_L.
  all: rewrite ?insert_insert_eq, ?set_delta_blocks_twice, <- ?app_assoc.
  all: try (eexists; split; [reflexivity|]; simpl; split_and!;
            solve [done | by intros ? [= <-] | eauto]).
  all: try (intros ? [= <-]; done).
Qed.

Lemma same_rowset_inv_reachable (objs0 : gmap addr RowSetMetadata) (a : addr)
    (r0 : RowSetMetadata) (id1 id2 : Z) (b1 b2 : BlockId) (c : CommitConfig) :
  objs0 !! a = Some r0 →
  rtc commit_steps (two_commits_start objs0 a id1 b1 a id2 b2) c →
  same_rowset_inv objs0 a r0 (id1, b1) (id2, b2) c.
Proof.
  intros Hr0 Hreach. revert c Hreach. apply rtc_ind_r.
  - by apply same_rowset_inv_start.
  - intros c1 c2 _ [who Hstep] IH. by eapply same_rowset_inv_step.
Qed.

Lemma two_rowsets_inv_start (objs0 : gmap addr RowSetMetadata)
    (a1 a2 : addr) (r1 r2 : RowSetMetadata) (id1 id2 : Z) (b1 b2 : BlockId) :
  objs0 !! a1 = Some r1 → objs0 !! a2 = Some r2 → a1 ≠ a2 →
  two_rowsets_inv objs0 a1 r1 (id1, b1) a2 r2 (id2, b2)
    (two_commits_start objs0 a1 id1 b1 a2 id2 b2).
Proof.
  intros H1 H2 Hne. split; simpl; try done.
  rewrite !set_delta_blocks_same.
  rewrite (insert_id objs0 a1) by done. by rewrite insert_id.
Qed.

Lemma two_rowsets_inv_step (objs0 : gmap addr RowSetMetadata)
    (a1 a2 : addr) (r1 r2 : RowSetMetadata) (p1 p2 : Z * BlockId)
    (who : ThreadId) (c c' : CommitConfig) :
  a1 ≠ a2 →
  two_rowsets_inv objs0 a1 r1 p1 a2 r2 p2 c →
  sched_step who c = Some c' →
  two_rowsets_inv objs0 a1 r1 p1 a2 r2 p2 c'.
Proof.
  intros Hne [S1 S2 P1 P2 L Ho Hs1 Hs2 St1 St2] Hstep.
  destruct c as [objs locks [s1 i1 k1 pc1] [s2 i2 k2 pc2]].
  unfold commit_pair in *. simpl in *. subst s1 s2 p1 p2 objs locks.
  unfold sched_step, commit_step in Hstep. simpl in Hstep.
  destruct who, pc1, pc2; simpl in *; try discriminate;
    rewrite ?lookup_insert_eq, ?(lookup_insert_ne _ a2 a1), ?lookup_insert_eq in Hstep
      by done;
    repeat case_decide; try discriminate;
    inversion Hstep; subst; clear Hstep.
  all: repeat match goal with
       | H : ∀ seen, AtPushBackWrite ?x = AtPushBackWrite seen → _ |- _ =>
           specialize (H x eq_refl); subst
       end.
  all: split; simpl; try done.
  all: try (by intros ? [= <-]; rewrite ?app_nil_r).
  all: try (rewrite set_delta_blocks_twice; apply map_eq; intros k;
            destruct (decide (k = a1)), (decide (k = a2)); by simplify_map_eq).
  all: clear -Hne; set_solver.
Qed.

Lemma two_rowsets_inv_reachable (objs0 : gmap addr RowSetMetadata)
    (a1 a2 : addr) (r1 r2 : RowSetMetadata) (id1 id2 : Z) (b1 b2 : BlockId)
    (c : CommitConfig) :
  objs0 !! a1 = Some r1 → objs0 !! a2 = Some r2 → a1 ≠ a2 →
  rtc commit_steps (two_commits_start objs0 a1 id1 b1 a2 id2 b2) c →
  two_rowsets_inv objs0 a1 r1 (id1, b1) a2 r2 (id2, b2) c.
Proof.
  intros H1 H2 Hne Hreach. revert c Hreach. apply rtc_ind_r.
  - by apply two_rowsets_inv_start.
  - intros c1 c2 _ [who Hstep] IH. by eapply two_rowsets_inv_step.
Qed.

(** Every step is one of the four steps of a call. *)
Lemma sched_step_steps_left (who : ThreadId) (c c' : CommitConfig) :
  sched_step who c = Some c' →
  S (steps_left (c_thread1 c') + steps_left (c_thread2 c'))
  = (steps_left (c_thread1 c) + steps_left (c_thread2 c))%nat.
Proof.
  destruct c as [objs locks [s1 i1 k1 pc1] [s2 i2 k2 pc2]].
  unfold sched_step, commit_step. simpl.
  destruct who, pc1, pc2; simpl; intros H;
    repeat (case_decide || case_match); simplify_eq; reflexivity.
Qed.

(** Run alone from a free lock, the four steps do what the sequential
    [CommitDeltaDataBlock] does. *)
Lemma commit_alone (objs : gmap addr RowSetMetadata) (locks : gset addr)
    (self : addr) (id : Z) (block_id : BlockId) (r : RowSetMetadata) (th2 : CommitThread) :
  objs !! self = Some r → self ∉ locks →
  run_schedule [Thread1; Thread1; Thread1; Thread1]
    (mkCommitConfig objs locks (mkCommitThread self id block_id AtLockGuard) th2)
  = Some (mkCommitConfig (<[self := (CommitDeltaDataBlock r id block_id).2]> objs) locks
            (mkCommitThread self id block_id
               (Returned (CommitDeltaDataBlock r id block_id).1)) th2).
Proof.
  intros Hr Hfree. simpl. unfold sched_step, commit_step. simpl.
  rewrite decide_False by done. simpl. rewrite Hr. simpl. rewrite Hr. simpl.
  do 2 f_equal. set_solver.
Qed.

Lemma two_rowsets_enabled (objs0 : gmap addr RowSetMetadata)
    (a1 a2 : addr) (r1 r2 : RowSetMetadata) (p1 p2 : Z * BlockId)
    (who : ThreadId) (c : CommitConfig) :
  a1 ≠ a2 →
  two_rowsets_inv objs0 a1 r1 p1 a2 r2 p2 c →
  has_returned (thread_of who c) = false →
  is_Some (sched_step who c).
Proof.
  intros Hne [S1 S2 P1 P2 L Ho Hs1 Hs2 St1 St2] Hnot.
  destruct c as [objs locks [s1 i1 k1 pc1] [s2 i2 k2 pc2]].
  unfold commit_pair in *. simpl in *. subst s1 s2 p1 p2 objs locks.
  unfold sched_step, commit_step. simpl.
  destruct who, pc1, pc2; simpl in *; try discriminate;
    rewrite ?lookup_insert_eq, ?(lookup_insert_ne _ a2 a1), ?lookup_insert_eq by done;
    try done.
  all: rewrite decide_False; [done|set_solver].
Qed.

Lemma two_rowsets_final (objs0 : gmap addr RowSetMetadata)
    (a1 a2 : addr) (r1 r2 : RowSetMetadata) (p1 p2 : Z * BlockId) (c : CommitConfig) :
  a1 ≠ a2 →
  two_rowsets_inv objs0 a1 r1 p1 a2 r2 p2 c →
  all_returned c = true →
  c_locks c = ∅
  ∧ c_objs c !! a1 = Some (set_delta_blocks (delta_blocks_ r1 ++ [p1]) r1)
  ∧ c_objs c !! a2 = Some (set_delta_blocks (delta_blocks_ r2 ++ [p2]) r2)
  ∧ th_pc (c_thread1 c) = Returned OK
  ∧ th_pc (c_thread2 c) = Returned OK.
Proof.
  intros Hne [S1 S2 P1 P2 L Ho Hs1 Hs2 St1 St2] Hall.
  destruct c as [objs locks [s1 i1 k1 pc1] [s2 i2 k2 pc2]].
  unfold all_returned in Hall. simpl in *.
  destruct pc1 as [| | | |st1], pc2 as [| | | |st2]; simpl in *; try discriminate.
  rewrite (St1 _ eq_refl), (St2 _ eq_refl). subst objs locks.
  split_and!; try done.
  - by rewrite lookup_insert_ne, lookup_insert_eq.
  - by rewrite lookup_insert_eq.
Qed.

Lemma same_rowset_progress (objs0 : gmap addr RowSetMetadata) (a : addr)
    (r0 : RowSetMetadata) (p1 p2 : Z * BlockId) (c : CommitConfig) :
  same_rowset_inv objs0 a r0 p1 p2 c →
  all_returned c = false →
  ∃ who, is_Some (sched_step who c).
Proof.
  intros [S1 S2 P1 P2 Ex L (log & Ho & Hlog & Hs1 & Hs2) St1 St2] Hnot.
  destruct c as [objs locks [s1 i1 k1 pc1] [s2 i2 k2 pc2]].
  unfold all_returned in Hnot. simpl in *. subst s1 s2 objs locks.
  destruct pc1, pc2; simpl in *; try discriminate.
  all: first
    [ exists Thread1; unfold sched_step, commit_step; simpl;
      rewrite ?lookup_insert_eq, ?decide_False by set_solver; done
    | exists Thread2; unfold sched_step, commit_step; simpl;
      rewrite ?lookup_insert_eq, ?decide_False by set_solver; done ].
Qed.

Lemma same_rowset_final (objs0 : gmap addr RowSetMetadata) (a : addr)
    (r0 : RowSetMetadata) (p1 p2 : Z * BlockId) (c : CommitConfig) :
  same_rowset_inv objs0 a r0 p1 p2 c →
  all_returned c = true →
  ∃ r, c_objs c !! a = Some r
    ∧ (delta_blocks_ r = delta_blocks_ r0 ++ [p1; p2]
       ∨ delta_blocks_ r = delta_blocks_ r0 ++ [p2; p1])
    ∧ delta_blocks_count r = (delta_blocks_count r0 + 2)%nat
    ∧ th_pc (c_thread1 c) = Returned OK
    ∧ th_pc (c_thread2 c) = Returned OK
    ∧ c_locks c = ∅.
Proof.
  intros [S1 S2 P1 P2 Ex L (log & Ho & Hlog & Hs1 & Hs2) St1 St2] Hall.
  destruct c as [objs locks [s1 i1 k1 pc1] [s2 i2 k2 pc2]].
  unfold all_returned in Hall. simpl in *.
  destruct pc1 as [| | | |st1], pc2 as [| | | |st2]; simpl in *; try discriminate.
  rewrite (St1 _ eq_refl), (St2 _ eq_refl). subst objs locks.
  exists (set_delta_blocks (delta_blocks_ r0 ++ log) r0).
  rewrite lookup_insert_eq. unfold delta_blocks_count. simpl.
  split_and!; try done.
  - destruct Hlog as [-> | ->]; auto.
  - rewrite length_app. by destruct Hlog as [-> | ->].
Qed.

Lemma run_schedule_reachable (sched : list ThreadId) (c c' : CommitConfig) :
  run_schedule sched c = Some c' → rtc commit_steps c c'.
Proof.
  revert c. induction sched as [|who sched IH]; intros c H; simpl in H.
  - inversion H. apply rtc_refl.
  - destruct (sched_step who c) as [c1|] eqn:Hstep; [|done].
    eapply rtc_l; [by exists who|by apply IH].
Qed.

(** C9, in the interleaving model.  Let two threads each call
    [CommitDeltaDataBlock], and take any configuration their steps can
    reach.  Every step is one of the four steps of one of the calls, so no
    run is longer than eight steps.  On two different rowsets, a thread
    that has not returned can always take its next step, whatever the
    other thread holds, and when both have returned each rowset has its
    own pair at the end of its chain.  On the same rowset, the two threads
    are never both between taking and releasing the lock; while one of
    them has not returned some thread can step; and when both have
    returned they returned OK, the lock is free, and the chain is the old
    chain followed by both pairs, in one of the two orders, so that
    [delta_blocks_count()] has grown by two. *)
Theorem C9_concurrent_commits
    (objs0 : gmap addr RowSetMetadata) (a1 a2 : addr) (r1 r2 : RowSetMetadata)
    (id1 id2 : Z) (b1 b2 : BlockId) (c : CommitConfig) :
  objs0 !! a1 = Some r1 →
  objs0 !! a2 = Some r2 →
  rtc commit_steps (two_commits_start objs0 a1 id1 b1 a2 id2 b2) c →
  (∀ who c', sched_step who c = Some c' →
     S (steps_left (c_thread1 c') + steps_left (c_thread2 c'))
     = (steps_left (c_thread1 c) + steps_left (c_thread2 c))%nat)
  ∧ (a1 ≠ a2 →
     (∀ who, has_returned (thread_of who c) = false → is_Some (sched_step who c))
     ∧ (all_returned c = true →
        c_locks c = ∅
        ∧ c_objs c !! a1 = Some (set_delta_blocks (delta_blocks_ r1 ++ [(id1, b1)]) r1)
        ∧ c_objs c !! a2 = Some (set_delta_blocks (delta_blocks_ r2 ++ [(id2, b2)]) r2)
        ∧ th_pc (c_thread1 c) = Returned OK
        ∧ th_pc (c_thread2 c) = Returned OK))
  ∧ (a1 = a2 →
     in_critical_section (c_thread1 c) && in_critical_section (c_thread2 c) = false
     ∧ (all_returned c = false → ∃ who, is_Some (sched_step who c))
     ∧ (all_returned c = true →
        ∃ r, c_objs c !! a1 = Some r
          ∧ (delta_blocks_ r = delta_blocks_ r1 ++ [(id1, b1); (id2, b2)]
             ∨ delta_blocks_ r = delta_blocks_ r1 ++ [(id2, b2); (id1, b1)])
          ∧ delta_blocks_count r = (delta_blocks_count r1 + 2)%nat
          ∧ th_pc (c_thread1 c) = Returned OK
          ∧ th_pc (c_thread2 c) = Returned OK
          ∧ c_locks c = ∅)).
Proof.
  intros H1 H2 Hreach. split_and!.
  - intros who c'. apply sched_step_steps_left.
  - intros Hne.
    pose proof (two_rowsets_inv_reachable _ _ _ _ _ _ _ _ _ _ H1 H2 Hne Hreach) as Hinv.
    split.
    + intros who. by eapply two_rowsets_enabled.
    + by eapply two_rowsets_final.
  - intros <-.
    pose proof (same_rowset_inv_reachable _ _ _ _ _ _ _ _ H1 Hreach) as Hinv.
    split_and!.
    + apply Hinv.
    + by eapply same_rowset_progress.
    + by eapply same_rowset_final.
Qed.

Lemma C9_concurrent_commits_witness :
  objs_two !! 1%positive = Some rs7
  ∧ (∃ c,
       run_schedule one_after_the_other
         (two_commits_start objs_two 1%positive 0 (StoreBlockId 1)
                                     1%positive 1 (StoreBlockId 2)) = Some c
       ∧ all_returned c = true
       ∧ ∃ r, c_objs c !! 1%positive = Some r
           ∧ (delta_blocks_ r
                = delta_blocks_ rs7 ++ [(0, StoreBlockId 1); (1, StoreBlockId 2)]
              ∨ delta_blocks_ r
                = delta_blocks_ rs7 ++ [(1, StoreBlockId 2); (0, StoreBlockId 1)])
           ∧ delta_blocks_count r = (delta_blocks_count rs7 + 2)%nat
           ∧ th_pc (c_thread1 c) = Returned OK
           ∧ th_pc (c_thread2 c) = Returned OK
           ∧ c_locks c = ∅)
  ∧ objs_two !! 2%positive = Some (new_RowSetMetadata 1%positive 8)
  ∧ (∃ c,
       run_schedule [Thread1; Thread2; Thread1]
         (two_commits_start objs_two 1%positive 0 (StoreBlockId 1)
                                     2%positive 1 (StoreBlockId 2)) = Some c
       ∧ in_critical_section (c_thread1 c) = true
       ∧ has_returned (c_thread2 c) = false
       ∧ is_Some (sched_step Thread2 c)).
Proof.
  assert (objs_two !! 1%positive = Some rs7) as H1 by reflexivity.
  assert (objs_two !! 2%positive = Some (new_RowSetMetadata 1%positive 8)) as H2
    by reflexivity.
  split; [exact H1|]. split; [|split; [exact H2|]].
  - destruct (run_schedule one_after_the_other
                (two_commits_start objs_two 1%positive 0 (StoreBlockId 1)
                                            1%positive 1 (StoreBlockId 2)))
      as [c|] eqn:Hrun; [|by vm_compute in Hrun].
    exists c. split; [done|].
    assert (all_returned c = true) as Hall
      by (vm_compute in Hrun; by inversion Hrun).
    split; [exact Hall|].
    exact (proj2 (proj2 (proj2 (proj2
             (C9_concurrent_commits objs_two 1%positive 1%positive rs7 rs7
                0 1 (StoreBlockId 1) (StoreBlockId 2) c H1 H1
                (run_schedule_reachable _ _ _ Hrun)))
             eq_refl)) Hall).
  - destruct (run_schedule [Thread1; Thread2; Thread1]
                (two_commits_start objs_two 1%positive 0 (StoreBlockId 1)
                                            2%positive 1 (StoreBlockId 2)))
      as [c|] eqn:Hrun; [|by vm_compute in Hrun].
    exists c. split; [done|].
    assert (in_critical_section (c_thread1 c) = true
            ∧ has_returned (c_thread2 c) = false) as [Hcs Hnot]
      by (vm_compute in Hrun; by inversion Hrun).
    split; [exact Hcs|]. split; [exact Hnot|].
    assert (1%positive ≠ 2%positive) as Hne by done.
    exact (proj1 (proj1 (proj2
             (C9_concurrent_commits objs_two 1%positive 2%positive rs7
                (new_RowSetMetadata 1%positive 8)
                0 1 (StoreBlockId 1) (StoreBlockId 2) c H1 H2
                (run_schedule_reachable _ _ _ Hrun)))
             Hne) Thread2 Hnot).
Defined.

(** *** The scenarios, run on the test store *)

(** One rowset with three column blocks and a bloom block, flushed and
    reloaded: one rowset, three column blocks, no delta block, and the
    ad-hoc index slot still unset. *)
Example reload_after_first_flush :
  reloaded_rowsets "tablet-1" "mb" "a" "m" w_flushed
  = Some [mkRowSetMetadata (StoreBlockId 4) NullBlockId
            [StoreBlockId 1; StoreBlockId 2; StoreBlockId 3] [] 2%positive 0].
Proof. vm_compute. reflexivity. Qed.

(** Two commits and a bare [Flush()]: the reloaded rowset has both delta
    blocks, in commit order. *)
Example reload_after_two_commits :
  (λ rs : list RowSetMetadata, delta_blocks_ <$> rs)
    <$> reloaded_rowsets "tablet-1" "mb" "a" "m" w_two_deltas
  = Some [[(0, StoreBlockId 5); (1, StoreBlockId 6)]].
Proof. vm_compute. reflexivity. Qed.

(** The failed update leaves no trace: the reload after it is the reload
    from before it. *)
Example reload_after_failed_update :
  reloaded_rowsets "tablet-1" "mb" "a" "m" w_failed
  = reloaded_rowsets "tablet-1" "mb" "a" "m" w_flushed
  ∧ rowsets 1%positive w_failed = Some [1%positive].
Proof. vm_compute. split; reflexivity. Qed.

(** * Further properties of the header's code *)

(** ** What a run of calls keeps *)

Section RunFacts.
Context {MasterBlock File FS : Type} {fsm : FsManager MasterBlock File FS}.

Ltac open_call H :=
  unfold NewBloomDataBlock, NewAdHocIndexDataBlock, NewColumnDataBlock,
    OpenColumnDataBlock, OpenDeltaDataBlock, NewDeltaDataBlock in H;
  repeat match type of H with
  | context [CreateNewBlock ?a ?b] =>
      destruct (CreateNewBlock a b) as [[? ?] ?]; simpl in H
  | context [match ?x with _ => _ end] => destruct x eqn:?; simpl in H
  end;
  try discriminate; inversion H; subst; clear H; simpl.

Lemma call_keeps (c : RowSetCall) (self self' : RowSetMetadata) (fs fs' : FS) :
  call c self fs = Returns (self', fs') →
  id_ self' = id_ self
  ∧ tablet_metadata_ self' = tablet_metadata_ self
  ∧ (IsNull (bloom_block_ self) = false → bloom_block_ self' = bloom_block_ self)
  ∧ (IsNull (adhoc_index_block_ self) = false →
       adhoc_index_block_ self' = adhoc_index_block_ self)
  ∧ column_blocks_ self `prefix_of` column_blocks_ self'.
Proof.
  destruct c; simpl; intros H; open_call H; split_and!;
    try done; try congruence; by eexists.
Qed.

Lemma calls_keeps (cs : list RowSetCall) (self self' : RowSetMetadata) (fs fs' : FS) :
  calls cs self fs = Returns (self', fs') →
  id_ self' = id_ self
  ∧ tablet_metadata_ self' = tablet_metadata_ self
  ∧ (IsNull (bloom_block_ self) = false → bloom_block_ self' = bloom_block_ self)
  ∧ (IsNull (adhoc_index_block_ self) = false →
       adhoc_index_block_ self' = adhoc_index_block_ self)
  ∧ column_blocks_ self `prefix_of` column_blocks_ self'.
Proof.
  revert self fs. induction cs as [|c cs IH]; intros self fs H; simpl in H.
  - inversion H; subst. done.
  - destruct (call c self fs) as [[r1 fs1]| |] eqn:Hc; try discriminate.
    destruct (call_keeps _ _ _ _ _ Hc) as (Hid & Ht & Hb & Ha & Hcol).
    destruct (IH _ _ H) as (Hid' & Ht' & Hb' & Ha' & Hcol').
    split_and!.
    + congruence.
    + congruence.
    + intros Hset. rewrite <- (Hb Hset). apply Hb'. by rewrite (Hb Hset).
    + intros Hset. rewrite <- (Ha Hset). apply Ha'. by rewrite (Ha Hset).
    + by etrans.
Qed.

(** X1. Whatever calls are made on a rowset, if the run returns then the
    rowset still has its id and its owning tablet, a bloom or ad-hoc index
    slot that was set holds the block id it held, and the column blocks
    recorded at the start are still the first column blocks, in the same
    order. *)
Theorem calls_keep_what_is_recorded
    (cs : list RowSetCall) (self self' : RowSetMetadata) (fs fs' : FS) :
  calls cs self fs = Returns (self', fs') →
  id_ self' = id_ self
  ∧ tablet_metadata_ self' = tablet_metadata_ self
  ∧ (IsNull (bloom_block_ self) = false → bloom_block_ self' = bloom_block_ self)
  ∧ (IsNull (adhoc_index_block_ self) = false →
       adhoc_index_block_ self' = adhoc_index_block_ self)
  ∧ column_blocks_ self `prefix_of` column_blocks_ self'.
Proof. apply calls_keeps. Qed.

Lemma bloom_request_on_set_slot (cs : list RowSetCall) (self : RowSetMetadata) (fs : FS) :
  IsNull (bloom_block_ self) = false → CallNewBloomDataBlock ∈ cs →
  ∀ res, calls cs self fs ≠ Returns res.
Proof.
  revert self fs. induction cs as [|c cs IH]; intros self fs Hset Hin res H.
  - by apply elem_of_nil in Hin.
  - simpl in H. destruct (call c self fs) as [[r1 fs1]| |] eqn:Hc; try discriminate.
    apply elem_of_cons in Hin as [<-|Hin].
    + simpl in Hc. unfold NewBloomDataBlock in Hc. by rewrite Hset in Hc.
    + destruct (call_keeps _ _ _ _ _ Hc) as (_ & _ & Hb & _).
      eapply (IH r1 fs1); [by rewrite (Hb Hset)|done|done].
Qed.

Lemma adhoc_request_on_set_slot (cs : list RowSetCall) (self : RowSetMetadata) (fs : FS) :
  IsNull (adhoc_index_block_ self) = false → CallNewAdHocIndexDataBlock ∈ cs →
  ∀ res, calls cs self fs ≠ Returns res.
Proof.
  revert self fs. induction cs as [|c cs IH]; intros self fs Hset Hin res H.
  - by apply elem_of_nil in Hin.
  - simpl in H. destruct (call c self fs) as [[r1 fs1]| |] eqn:Hc; try discriminate.
    apply elem_of_cons in Hin as [<-|Hin].
    + simpl in Hc. unfold NewAdHocIndexDataBlock in Hc. by rewrite Hset in Hc.
    + destruct (call_keeps _ _ _ _ _ Hc) as (_ & _ & _ & Ha & _).
      eapply (IH r1 fs1); [by rewrite (Ha Hset)|done|done].
Qed.

(** X2. A run that asks for a bloom block while the bloom slot is set
    does not return, wherever in the run the request comes and whatever
    the store answers; likewise for the ad-hoc index slot. *)
Theorem second_allocation_ends_the_run
    (cs : list RowSetCall) (self : RowSetMetadata) (fs : FS) :
  (IsNull (bloom_block_ self) = false → CallNewBloomDataBlock ∈ cs →
     ∀ res, calls cs self fs ≠ Returns res)
  ∧ (IsNull (adhoc_index_block_ self) = false → CallNewAdHocIndexDataBlock ∈ cs →
     ∀ res, calls cs self fs ≠ Returns res).
Proof.
  split; [apply bloom_request_on_set_slot|apply adhoc_request_on_set_slot].
Qed.

Lemma call_column_request (c : RowSetCall) (self self' : RowSetMetadata) (fs fs' : FS) :
  call c self fs = Returns (self', fs') →
  Forall (λ i, i = length (column_blocks_ self)) (column_requests [c])
  ∧ (length (column_blocks_ self') = length (column_blocks_ self)
     ∨ (length (column_blocks_ self') = S (length (column_blocks_ self))
        ∧ column_requests [c] = [length (column_blocks_ self)])).
Proof.
  destruct c; simpl; intros H; open_call H;
    rewrite ?length_app; simpl; (split; [by repeat constructor|]); auto.
  right. split; [lia|done].
Qed.

Lemma column_requests_cons (c : RowSetCall) (cs : list RowSetCall) :
  column_requests (c :: cs) = column_requests [c] ++ column_requests cs.
Proof. by destruct c. Qed.

(** X3. In a run that returns, the column indices requested from
    [NewColumnDataBlock] never go down and skip nothing: each request
    names the number of column blocks recorded at that moment, so every
    requested index lies between the count at the start and the count at
    the end, and every index from the count at the start up to the count
    at the end was requested. *)
Theorem column_requests_in_order
    (cs : list RowSetCall) (self self' : RowSetMetadata) (fs fs' : FS) :
  calls cs self fs = Returns (self', fs') →
  StronglySorted le (column_requests cs)
  ∧ Forall (λ i, length (column_blocks_ self) ≤ i ≤ length (column_blocks_ self'))%nat
           (column_requests cs)
  ∧ (∀ k, (length (column_blocks_ self) ≤ k < length (column_blocks_ self'))%nat →
          k ∈ column_requests cs).
Proof.
  revert self fs. induction cs as [|c cs IH]; intros self fs H; simpl in H.
  - inversion H; subst. simpl. split_and!; [constructor|constructor|lia].
  - destruct (call c self fs) as [[r1 fs1]| |] eqn:Hc; try discriminate.
    destruct (call_column_request _ _ _ _ _ Hc) as (Hreq & Hlen).
    destruct (IH _ _ H) as (Hs & Hall & Hevery).
    assert (length (column_blocks_ r1) ≤ length (column_blocks_ self'))%nat as Hgrow.
    { destruct (calls_keeps _ _ _ _ _ H) as (_ & _ & _ & _ & Hp).
      by apply prefix_length. }
    rewrite column_requests_cons.
    split_and!.
    + apply StronglySorted_app_2; [| |done].
      * intros i j Hi Hj. rewrite Forall_forall in Hreq, Hall.
        specialize (Hreq _ Hi). specialize (Hall _ Hj). lia.
      * destruct c; simpl; repeat constructor.
    + apply Forall_app. split.
      * eapply Forall_impl; [exact Hreq|]. simpl. intros i ->. lia.
      * eapply Forall_impl; [exact Hall|]. simpl. intros i ?. lia.
    + intros k Hk. apply elem_of_app.
      destruct Hlen as [Hsame|[Hnext Hthis]].
      * right. apply Hevery. lia.
      * destruct (decide (k = length (column_blocks_ self))) as [->|Hne].
        -- left. rewrite Hthis. by left.
        -- right. apply Hevery. lia.
Qed.

End RunFacts.

(** ** Creating a block, then opening it *)

Section OpenFacts.
Context {MasterBlock File FS : Type} {fsm : FsManager MasterBlock File FS}.

(** [OpenColumnDataBlock] in either build, at an index in range and at
    one out of range. *)
Lemma OpenColumnDataBlock_build_in_range
    (debug : bool) (self : RowSetMetadata) (i : nat) (fs : FS) (b : BlockId) :
  column_blocks_ self !! i = Some b →
  OpenColumnDataBlock_build debug self i fs = Returns (OpenDataBlock fs b).
Proof.
  intros Hb. unfold OpenColumnDataBlock_build, OpenColumnDataBlock.
  rewrite bool_decide_eq_true_2 by (by eapply lookup_lt_Some).
  rewrite Hb. by destruct debug.
Qed.

Lemma OpenColumnDataBlock_build_out_of_range
    (debug : bool) (self : RowSetMetadata) (i : nat) (fs : FS) :
  (length (column_blocks_ self) ≤ i)%nat →
  OpenColumnDataBlock_build debug self i fs
  = if debug then CheckFailure else UndefinedBehaviour.
Proof.
  intros Hi. unfold OpenColumnDataBlock_build, OpenColumnDataBlock.
  rewrite bool_decide_eq_false_2 by lia.
  rewrite (lookup_ge_None_2 _ _ Hi). by destruct debug.
Qed.

(** X4. When [NewColumnDataBlock(col_idx)] returns OK, the store created
    a block and its id is the new last column block.  From then on, in a
    debug and in a release build and on whatever store state,
    [OpenColumnDataBlock(col_idx)] opens that block: it returns the error
    of the store's [OpenBlock] on that id, else the error of [Size] on
    the reader, else the reader and its size.  The indices below
    [col_idx] return what they returned before.  The indices above
    [col_idx], as [col_idx] itself before the call, never return: a debug
    build stops at [DCHECK_LT], a release build reads the vector out of
    range. *)
Theorem NewColumnDataBlock_then_open
    (debug : bool) (self self' : RowSetMetadata) (col_idx : nat) (fs fs' : FS) :
  NewColumnDataBlock self col_idx fs = Returns (OK, self', fs') →
  ∃ b,
    CreateNewBlock fs NullBlockId = (OK, b, fs')
    ∧ column_blocks_ self' = column_blocks_ self ++ [b]
    ∧ (∀ fs2, OpenColumnDataBlock_build debug self' col_idx fs2
              = Returns (OpenDataBlock fs2 b))
    ∧ (∀ fs2 e, OpenBlock fs2 b = Err e →
         OpenColumnDataBlock_build debug self' col_idx fs2 = Returns (Err e))
    ∧ (∀ fs2 reader e, OpenBlock fs2 b = Ok reader → Size reader = Err e →
         OpenColumnDataBlock_build debug self' col_idx fs2 = Returns (Err e))
    ∧ (∀ fs2 reader size, OpenBlock fs2 b = Ok reader → Size reader = Ok size →
         OpenColumnDataBlock_build debug self' col_idx fs2
         = Returns (Ok (reader, size)))
    ∧ (∀ i fs2, (i < col_idx)%nat →
         OpenColumnDataBlock_build debug self' i fs2
         = OpenColumnDataBlock_build debug self i fs2
         ∧ ∃ x, column_blocks_ self !! i = Some x
              ∧ OpenColumnDataBlock_build debug self i fs2
                = Returns (OpenDataBlock fs2 x))
    ∧ (∀ j fs2, (col_idx < j)%nat →
         OpenColumnDataBlock_build debug self' j fs2
         = if debug then CheckFailure else UndefinedBehaviour)
    ∧ (∀ fs2, OpenColumnDataBlock_build debug self col_idx fs2
              = if debug then CheckFailure else UndefinedBehaviour).
Proof.
  unfold NewColumnDataBlock. intros H.
  case_decide as Hlen; [|done]. subst col_idx.
  destruct (CreateNewBlock fs NullBlockId) as [[s b] fs1] eqn:Hc.
  destruct s; simpl in H; inversion H; subst. clear H.
  exists b. simpl.
  assert (∀ fs2, OpenColumnDataBlock_build debug
                   (set_column_blocks (column_blocks_ self ++ [b]) self)
                   (length (column_blocks_ self)) fs2
                 = Returns (OpenDataBlock fs2 b)) as Hopen.
  { intros fs2. apply OpenColumnDataBlock_build_in_range. simpl.
    by rewrite lookup_app_r, Nat.sub_diag. }
  split_and!; [done|done|done|..].
  - intros fs2 e He. rewrite Hopen.
    by rewrite (proj1 (OpenDataBlock_store fs2 b) e He).
  - intros fs2 reader e Hr He. rewrite Hopen.
    by rewrite (proj1 (proj2 (OpenDataBlock_store fs2 b)) reader e Hr He).
  - intros fs2 reader size Hr Hs. rewrite Hopen.
    by rewrite (proj2 (proj2 (OpenDataBlock_store fs2 b)) reader size Hr Hs).
  - intros i fs2 Hi.
    destruct (lookup_lt_is_Some_2 _ _ Hi) as [x Hx].
    rewrite (OpenColumnDataBlock_build_in_range debug self i fs2 x Hx).
    split; [|by exists x].
    apply OpenColumnDataBlock_build_in_range. simpl. by rewrite lookup_app_l.
  - intros j fs2 Hj. apply OpenColumnDataBlock_build_out_of_range.
    simpl. rewrite length_app. simpl. lia.
  - intros fs2. by apply OpenColumnDataBlock_build_out_of_range.
Qed.

(** X5. [HasColumnDataBlockForTests(idx)] reads no element out of range:
    at or beyond the column count it answers false.  It answers true
    exactly when a block id is recorded at [idx] and the store has that
    block, and then [OpenColumnDataBlock(idx)] is a read in range of that
    same block id. *)
Theorem HasColumnDataBlockForTests_in_range
    (self : RowSetMetadata) (idx : nat) (fs : FS) :
  ((length (column_blocks_ self) ≤ idx)%nat →
     HasColumnDataBlockForTests self idx fs = false)
  ∧ (HasColumnDataBlockForTests self idx fs = true ↔
       ∃ b, column_blocks_ self !! idx = Some b ∧ BlockExists fs b = true)
  ∧ (HasColumnDataBlockForTests self idx fs = true →
       (idx < length (column_blocks_ self))%nat
       ∧ ∃ b, BlockExists fs b = true
           ∧ ∀ fs2, OpenColumnDataBlock self idx fs2 = Returns (OpenDataBlock fs2 b)).
Proof.
  unfold HasColumnDataBlockForTests, OpenColumnDataBlock. split_and!.
  - intros Hge. by rewrite lookup_ge_None_2.
  - destruct (column_blocks_ self !! idx) as [b|]; split.
    + intros Hb. by exists b.
    + by intros (b' & [= <-] & Hb).
    + done.
    + by intros (b' & ? & _).
  - destruct (column_blocks_ self !! idx) as [b|] eqn:Hl; [|done].
    intros Hb. split; [by eapply lookup_lt_Some|]. by exists b.
Qed.

(** X6. When [HasBloomDataBlockForTests()] answers true the bloom slot
    is taken: the store has the block, [OpenBloomDataBlock] opens it, and
    [NewBloomDataBlock] fails its [CHECK] on every store.  On an unset
    slot the answer is false whatever the store holds. *)
Theorem HasBloomDataBlockForTests_slot_taken (self : RowSetMetadata) (fs : FS) :
  (HasBloomDataBlockForTests self fs = true →
     IsNull (bloom_block_ self) = false
     ∧ BlockExists fs (bloom_block_ self) = true
     ∧ (∀ fs2, NewBloomDataBlock self fs2 = CheckFailure)
     ∧ (∀ cs fs2 res, CallNewBloomDataBlock ∈ cs → calls cs self fs2 ≠ Returns res))
  ∧ (IsNull (bloom_block_ self) = true → HasBloomDataBlockForTests self fs = false).
Proof.
  unfold HasBloomDataBlockForTests. split.
  - intros H. apply andb_true_iff in H as [Hset Hex].
    apply negb_true_iff in Hset. split_and!; try done.
    + intros fs2. unfold NewBloomDataBlock. by rewrite Hset.
    + intros cs fs2 res Hin.
      by apply bloom_request_on_set_slot.
  - by intros ->.
Qed.

(** X7. A delta block is allocated, written and then committed:
    [NewDeltaDataBlock] is the store's [CreateNewBlock] and leaves the
    object as it was; after [CommitDeltaDataBlock(id, block_id)] the
    count has grown by one and the pair at the old count is
    [(id, block_id)]; [OpenDeltaDataBlock] at the old count opens
    [block_id]: it returns the error of the store's [OpenBlock] on
    [block_id], else the error of [Size] on the reader, else the reader
    and its size; every smaller index opens what it opened before, and
    the bloom, ad-hoc index and column blocks are the ones from before. *)
Theorem delta_block_committed_then_open
    (self : RowSetMetadata) (b0 block_id : BlockId) (id : Z) (fs : FS) :
  ∃ s b1 self1 fs1 self2,
    NewDeltaDataBlock self b0 fs = (s, b1, self1, fs1)
    ∧ CreateNewBlock fs b0 = (s, b1, fs1)
    ∧ self1 = self
    ∧ CommitDeltaDataBlock self1 id block_id = (OK, self2)
    ∧ delta_blocks_count self1 = delta_blocks_count self
    ∧ delta_blocks_count self2 = S (delta_blocks_count self)
    ∧ delta_blocks_ self2 !! delta_blocks_count self = Some (id, block_id)
    ∧ (∀ fs2, OpenDeltaDataBlock self2 (delta_blocks_count self) fs2
              = Returns (OpenDataBlock fs2 block_id))
    ∧ (∀ fs2 e, OpenBlock fs2 block_id = Err e →
         OpenDeltaDataBlock self2 (delta_blocks_count self) fs2 = Returns (Err e))
    ∧ (∀ fs2 reader e, OpenBlock fs2 block_id = Ok reader → Size reader = Err e →
         OpenDeltaDataBlock self2 (delta_blocks_count self) fs2 = Returns (Err e))
    ∧ (∀ fs2 reader size,
         OpenBlock fs2 block_id = Ok reader → Size reader = Ok size →
         OpenDeltaDataBlock self2 (delta_blocks_count self) fs2
         = Returns (Ok (reader, size)))
    ∧ (∀ i fs2, (i < delta_blocks_count self)%nat →
         OpenDeltaDataBlock self2 i fs2 = OpenDeltaDataBlock self i fs2)
    ∧ (∀ fs2, OpenDeltaDataBlock self (delta_blocks_count self) fs2 = UndefinedBehaviour)
    ∧ bloom_block_ self2 = bloom_block_ self
    ∧ adhoc_index_block_ self2 = adhoc_index_block_ self
    ∧ column_blocks_ self2 = column_blocks_ self.
Proof.
  unfold NewDeltaDataBlock, CommitDeltaDataBlock, delta_blocks_count, OpenDeltaDataBlock.
  destruct (CreateNewBlock fs b0) as [[s b1] fs1].
  exists s, b1, self, fs1. eexists.
  split; [done|]. split; [done|]. split; [done|]. split; [done|]. simpl.
  assert ((delta_blocks_ self ++ [(id, block_id)]) !! length (delta_blocks_ self)
          = Some (id, block_id)) as Hlast
    by (by rewrite lookup_app_r, Nat.sub_diag).
  rewrite Hlast. simpl.
  split_and!; try done.
  - rewrite length_app. simpl. lia.
  - intros fs2 e He.
    by rewrite (proj1 (OpenDataBlock_store fs2 block_id) e He).
  - intros fs2 reader e Hr He.
    by rewrite (proj1 (proj2 (OpenDataBlock_store fs2 block_id)) reader e Hr He).
  - intros fs2 reader size Hr Hs.
    by rewrite (proj2 (proj2 (OpenDataBlock_store fs2 block_id)) reader size Hr Hs).
  - intros i fs2 Hi. by rewrite lookup_app_l.
  - intros fs2. by rewrite lookup_ge_None_2.
Qed.

(** X8. A failed block creation and the next attempt.  When
    [NewColumnDataBlock(col_idx)] returns a failure the object is
    unchanged and the same [col_idx] passes the [CHECK] again on any
    store.  [NewBloomDataBlock] hands the slot itself to the store: when
    it returns, with whatever status, the slot holds what the store left
    in it, and the next [NewBloomDataBlock] passes the [CHECK] exactly
    when that is still the unset id. *)
Theorem retry_after_failed_creation (self : RowSetMetadata) (fs : FS) :
  (∀ col_idx e self' fs',
     NewColumnDataBlock self col_idx fs = Returns (Failed e, self', fs') →
     self' = self ∧ ∀ fs2, NewColumnDataBlock self' col_idx fs2 ≠ CheckFailure)
  ∧ (∀ s self' fs',
       NewBloomDataBlock self fs = Returns (s, self', fs') →
       bloom_block_ self' = (CreateNewBlock fs (bloom_block_ self)).1.2
       ∧ ∀ fs2, NewBloomDataBlock self' fs2 ≠ CheckFailure
                ↔ IsNull (bloom_block_ self') = true).
Proof.
  split.
  - intros col_idx e self' fs' H. unfold NewColumnDataBlock in H.
    case_decide as Hlen; [|done].
    destruct (CreateNewBlock fs NullBlockId) as [[s b] fs1].
    destruct s; simpl in H; inversion H; subst. split; [done|].
    intros fs2. unfold NewColumnDataBlock. rewrite decide_True by done.
    destruct (CreateNewBlock fs2 NullBlockId) as [[s b2] fs3]. by destruct (ok s).
  - intros s self' fs' H. unfold NewBloomDataBlock in H.
    destruct (IsNull (bloom_block_ self)); [|done].
    destruct (CreateNewBlock fs (bloom_block_ self)) as [[s1 b] fs1].
    inversion H; subst. simpl. split; [done|].
    intros fs2. unfold NewBloomDataBlock. simpl.
    destruct (IsNull b); [|by split].
    destruct (CreateNewBlock fs2 b) as [[s2 b2] fs3]. done.
Qed.

(** X11. What a reader could open stays where it was.  After any run of
    calls that returns, every column index and every delta index that was
    in range opens the same block id as before, and a bloom or ad-hoc
    index slot that was set opens the same block id as before. *)
Theorem opened_blocks_are_stable
    (cs : list RowSetCall) (self self' : RowSetMetadata) (fs fs' : FS) :
  calls cs self fs = Returns (self', fs') →
  (∀ i fs2, (i < length (column_blocks_ self))%nat →
     OpenColumnDataBlock self' i fs2 = OpenColumnDataBlock self i fs2)
  ∧ (∀ i fs2, (i < delta_blocks_count self)%nat →
       OpenDeltaDataBlock self' i fs2 = OpenDeltaDataBlock self i fs2)
  ∧ (IsNull (bloom_block_ self) = false →
       ∀ fs2, OpenBloomDataBlock self' fs2 = OpenBloomDataBlock self fs2)
  ∧ (IsNull (adhoc_index_block_ self) = false →
       ∀ fs2, OpenAdHocIndexDataBlock self' fs2 = OpenAdHocIndexDataBlock self fs2).
Proof.
  intros H.
  destruct (calls_keeps _ _ _ _ _ H) as (_ & _ & Hb & Ha & [k Hk]).
  pose proof (calls_delta_blocks _ _ _ _ _ H) as Hd.
  unfold OpenColumnDataBlock, OpenDeltaDataBlock, OpenBloomDataBlock,
    OpenAdHocIndexDataBlock, delta_blocks_count.
  split_and!.
  - intros i fs2 Hi. by rewrite Hk, lookup_app_l.
  - intros i fs2 Hi. by rewrite Hd, lookup_app_l.
  - intros Hset fs2. by rewrite (Hb Hset).
  - intros Hset fs2. by rewrite (Ha Hset).
Qed.

End OpenFacts.

(** ** One commit without interference *)

(** X10. When a thread enters [CommitDeltaDataBlock] while the lock of
    its rowset is free and then takes its four steps in a row, the shared
    state ends as the sequential [CommitDeltaDataBlock] leaves it: the
    rowset holds the object the sequential call returns, the thread
    returns the status the sequential call returns, the set of held locks
    is the one from before, and the other thread has not moved. *)
Theorem uninterrupted_commit_is_sequential
    (who : ThreadId) (c : CommitConfig) (r : RowSetMetadata) :
  th_pc (thread_of who c) = AtLockGuard →
  c_objs c !! (th_self (thread_of who c)) = Some r →
  th_self (thread_of who c) ∉ c_locks c →
  ∃ c',
    run_schedule [who; who; who; who] c = Some c'
    ∧ c_objs c'
      = <[th_self (thread_of who c) :=
            (CommitDeltaDataBlock r (th_id (thread_of who c))
               (th_block_id (thread_of who c))).2]> (c_objs c)
    ∧ th_pc (thread_of who c')
      = Returned (CommitDeltaDataBlock r (th_id (thread_of who c))
                    (th_block_id (thread_of who c))).1
    ∧ c_locks c' = c_locks c
    ∧ match who with
      | Thread1 => c_thread2 c' = c_thread2 c
      | Thread2 => c_thread1 c' = c_thread1 c
      end.
Proof.
  destruct c as [objs locks [s1 i1 k1 pc1] [s2 i2 k2 pc2]].
  destruct who; simpl; intros -> Hr Hfree; eexists;
    unfold sched_step, commit_step; simpl;
    rewrite decide_False by done; simpl; rewrite Hr; simpl; rewrite Hr; simpl;
    (split; [reflexivity|]); simpl; split_and!; try done; set_solver.
Qed.

(** ** The further properties on the test store *)

Lemma calls_keep_what_is_recorded_witness :
  ∃ self' fs',
    calls write_path_rest rs7_one_column fs_one_block_next_fails = Returns (self', fs')
    ∧ id_ self' = id_ rs7_one_column
    ∧ tablet_metadata_ self' = tablet_metadata_ rs7_one_column
    ∧ column_blocks_ rs7_one_column `prefix_of` column_blocks_ self'.
Proof.
  destruct (calls write_path_rest rs7_one_column fs_one_block_next_fails)
    as [[self' fs']| |] eqn:Hrun; [|by vm_compute in Hrun..].
  exists self', fs'. split; [reflexivity|].
  destruct (calls_keep_what_is_recorded write_path_rest rs7_one_column self'
              fs_one_block_next_fails fs' Hrun) as (H1 & H2 & _ & _ & H5).
  exact (conj H1 (conj H2 H5)).
Defined.

Lemma second_allocation_ends_the_run_witness :
  IsNull (bloom_block_ rs7_bloom) = false
  ∧ CallNewBloomDataBlock ∈ [CallDeltaBlocksCount; CallNewBloomDataBlock]
  ∧ ∀ res, calls [CallDeltaBlocksCount; CallNewBloomDataBlock] rs7_bloom fs_one_block
           ≠ Returns res.
Proof.
  assert (IsNull (bloom_block_ rs7_bloom) = false) as Hset by reflexivity.
  assert (CallNewBloomDataBlock ∈ [CallDeltaBlocksCount; CallNewBloomDataBlock]) as Hin
    by (right; left).
  split; [exact Hset|]. split; [exact Hin|].
  exact (proj1 (second_allocation_ends_the_run
                  [CallDeltaBlocksCount; CallNewBloomDataBlock] rs7_bloom fs_one_block)
           Hset Hin).
Defined.

Lemma column_requests_in_order_witness :
  ∃ self' fs',
    calls write_path rs7 fs_second_fails = Returns (self', fs')
    ∧ column_requests write_path = [0; 1; 1; 2]%nat
    ∧ length (column_blocks_ self') = 3%nat
    ∧ StronglySorted le (column_requests write_path)
    ∧ ∀ k, (length (column_blocks_ rs7) ≤ k < length (column_blocks_ self'))%nat →
           k ∈ column_requests write_path.
Proof.
  destruct (calls write_path rs7 fs_second_fails) as [[self' fs']| |] eqn:Hrun;
    [|by vm_compute in Hrun..].
  exists self', fs'. split; [reflexivity|]. split; [reflexivity|].
  split; [by vm_compute in Hrun; inversion Hrun|].
  destruct (column_requests_in_order write_path rs7 self' fs_second_fails fs' Hrun)
    as (H1 & _ & H3).
  exact (conj H1 H3).
Defined.

Lemma NewColumnDataBlock_then_open_witness :
  NewColumnDataBlock rs7 0 (sim_empty []) = Returns (OK, rs7_one_column, fs_one_block)
  ∧ CreateNewBlock (sim_empty []) NullBlockId = (OK, StoreBlockId 1, fs_one_block)
  ∧ OpenBlock fs_one_block (StoreBlockId 1) = Ok (1%N, 0)
  ∧ Size (FsManager := SimFsManager) (1%N, 0) = Ok 0
  ∧ (∀ debug, OpenColumnDataBlock_build debug rs7_one_column 0 fs_one_block
              = Returns (Ok ((1%N, 0), 0)))
  ∧ (∀ fs2 : SimFs, OpenColumnDataBlock_build true rs7_one_column 1 fs2 = CheckFailure)
  ∧ (∀ fs2 : SimFs,
       OpenColumnDataBlock_build false rs7_one_column 1 fs2 = UndefinedBehaviour).
Proof.
  assert (NewColumnDataBlock rs7 0 (sim_empty [])
          = Returns (OK, rs7_one_column, fs_one_block)) as Hnew by reflexivity.
  assert (CreateNewBlock (sim_empty []) NullBlockId
          = (OK, StoreBlockId 1, fs_one_block)) as Hcreate by reflexivity.
  split; [exact Hnew|]. split; [exact Hcreate|].
  split; [reflexivity|]. split; [reflexivity|].
  split; [|split].
  - intros debug.
    destruct (NewColumnDataBlock_then_open debug rs7 rs7_one_column 0 (sim_empty [])
                fs_one_block Hnew) as (b & Hb & _ & _ & _ & _ & Hok & _).
    assert (b = StoreBlockId 1) as ->
      by (rewrite Hcreate in Hb; by inversion Hb).
    exact (Hok fs_one_block (1%N, 0) 0 eq_refl eq_refl).
  - intros fs2.
    destruct (NewColumnDataBlock_then_open true rs7 rs7_one_column 0 (sim_empty [])
                fs_one_block Hnew) as (b & _ & _ & _ & _ & _ & _ & _ & Habove & _).
    exact (Habove 1%nat fs2 (Nat.lt_0_1)).
  - intros fs2.
    destruct (NewColumnDataBlock_then_open false rs7 rs7_one_column 0 (sim_empty [])
                fs_one_block Hnew) as (b & _ & _ & _ & _ & _ & _ & _ & Habove & _).
    exact (Habove 1%nat fs2 (Nat.lt_0_1)).
Defined.

Lemma HasColumnDataBlockForTests_in_range_witness :
  HasColumnDataBlockForTests rs7_one_column 0 fs_one_block = true
  ∧ (0 < length (column_blocks_ rs7_one_column))%nat
  ∧ (length (column_blocks_ rs7_one_column) ≤ 1)%nat
  ∧ HasColumnDataBlockForTests rs7_one_column 1 fs_one_block = false.
Proof.
  assert (HasColumnDataBlockForTests rs7_one_column 0 fs_one_block = true) as Hhas
    by reflexivity.
  assert (length (column_blocks_ rs7_one_column) ≤ 1)%nat as Hge by (simpl; lia).
  split; [exact Hhas|].
  destruct (HasColumnDataBlockForTests_in_range rs7_one_column 0 fs_one_block)
    as (_ & _ & Hin).
  split; [exact (proj1 (Hin Hhas))|]. split; [exact Hge|].
  exact (proj1 (HasColumnDataBlockForTests_in_range rs7_one_column 1 fs_one_block) Hge).
Defined.

Lemma HasBloomDataBlockForTests_slot_taken_witness :
  HasBloomDataBlockForTests rs7_bloom fs_one_block = true
  ∧ IsNull (bloom_block_ rs7_bloom) = false
  ∧ BlockExists fs_one_block (bloom_block_ rs7_bloom) = true
  ∧ (∀ fs2 : SimFs, NewBloomDataBlock rs7_bloom fs2 = CheckFailure).
Proof.
  assert (HasBloomDataBlockForTests rs7_bloom fs_one_block = true) as Hhas
    by reflexivity.
  split; [exact Hhas|].
  destruct (proj1 (HasBloomDataBlockForTests_slot_taken rs7_bloom fs_one_block) Hhas)
    as (H1 & H2 & H3 & _).
  exact (conj H1 (conj H2 H3)).
Defined.

Lemma delta_block_committed_then_open_witness :
  (1 < delta_blocks_count rs7_two_deltas)%nat
  ∧ ∃ fs1 self2,
      NewDeltaDataBlock rs7_two_deltas NullBlockId fs_two_blocks
      = (OK, StoreBlockId 3, rs7_two_deltas, fs1)
      ∧ CommitDeltaDataBlock rs7_two_deltas 2 (StoreBlockId 3) = (OK, self2)
      ∧ delta_blocks_count self2 = 3%nat
      ∧ delta_blocks_ self2 !! 2%nat = Some (2, StoreBlockId 3)
      ∧ OpenBlock fs1 (StoreBlockId 3) = Ok (3%N, 0)
      ∧ Size (FsManager := SimFsManager) (3%N, 0) = Ok 0
      ∧ OpenDeltaDataBlock self2 2 fs1 = Returns (Ok ((3%N, 0), 0))
      ∧ OpenDeltaDataBlock self2 2 fs_two_blocks = Returns (Err NotFound)
      ∧ OpenDeltaDataBlock self2 1 fs1 = OpenDeltaDataBlock rs7_two_deltas 1 fs1.
Proof.
  assert (1 < delta_blocks_count rs7_two_deltas)%nat as Hlt
    by (unfold delta_blocks_count, rs7_two_deltas; simpl; lia).
  split; [exact Hlt|].
  destruct (delta_block_committed_then_open rs7_two_deltas NullBlockId (StoreBlockId 3)
              2 fs_two_blocks)
    as (s & b1 & self1 & fs1 & self2 & Hnew & Hcreate & -> & Hcommit & _ & Hcount
        & Hpair & _ & Herr & _ & Hok & Hold & _).
  assert (s = OK ∧ b1 = StoreBlockId 3) as [-> ->]
    by (vm_compute in Hcreate; by inversion Hcreate).
  assert (OpenBlock fs1 (StoreBlockId 3) = Ok (3%N, 0)) as Hopen
    by (vm_compute in Hcreate; inversion Hcreate; subst fs1; vm_compute; reflexivity).
  assert (Size (FsManager := SimFsManager) (3%N, 0) = Ok 0) as Hsize by reflexivity.
  assert (OpenBlock fs_two_blocks (StoreBlockId 3) = Err NotFound) as Hmissing
    by (vm_compute; reflexivity).
  exists fs1, self2.
  split; [exact Hnew|]. split; [exact Hcommit|]. split; [exact Hcount|].
  split; [exact Hpair|]. split; [exact Hopen|]. split; [exact Hsize|].
  split; [exact (Hok fs1 (3%N, 0) 0 Hopen Hsize)|].
  split; [exact (Herr fs_two_blocks NotFound Hmissing)|].
  exact (Hold 1%nat fs1 Hlt).
Defined.

Lemma retry_after_failed_creation_witness :
  NewColumnDataBlock rs7 0 (sim_empty [true])
    = Returns (Failed IOError, rs7, sim_empty [])
  ∧ (∀ fs2 : SimFs, NewColumnDataBlock rs7 0 fs2 ≠ CheckFailure)
  ∧ NewBloomDataBlock rs7 (sim_empty [true])
    = Returns (Failed IOError, rs7, sim_empty [])
  ∧ (∀ fs2 : SimFs, NewBloomDataBlock rs7 fs2 ≠ CheckFailure
                    ↔ IsNull (bloom_block_ rs7) = true).
Proof.
  assert (NewColumnDataBlock rs7 0 (sim_empty [true])
          = Returns (Failed IOError, rs7, sim_empty [])) as Hcol by reflexivity.
  assert (NewBloomDataBlock rs7 (sim_empty [true])
          = Returns (Failed IOError, rs7, sim_empty [])) as Hbloom by reflexivity.
  destruct (retry_after_failed_creation rs7 (sim_empty [true])) as [Hc Hb].
  split; [exact Hcol|]. split; [exact (proj2 (Hc _ _ _ _ Hcol))|].
  split; [exact Hbloom|]. exact (proj2 (Hb _ _ _ Hbloom)).
Defined.

Lemma uninterrupted_commit_is_sequential_witness :
  th_pc (thread_of Thread2 c_thread2_starts) = AtLockGuard
  ∧ c_objs c_thread2_starts !! (th_self (thread_of Thread2 c_thread2_starts)) = Some rs7
  ∧ (th_self (thread_of Thread2 c_thread2_starts) ∉ c_locks c_thread2_starts)
  ∧ ∃ c',
      run_schedule [Thread2; Thread2; Thread2; Thread2] c_thread2_starts = Some c'
      ∧ c_objs c' !! 1%positive
        = Some ((CommitDeltaDataBlock rs7 0 (StoreBlockId 1)).2)
      ∧ c_locks c' = c_locks c_thread2_starts
      ∧ c_thread1 c' = c_thread1 c_thread2_starts.
Proof.
  assert (th_pc (thread_of Thread2 c_thread2_starts) = AtLockGuard) as Hpc by reflexivity.
  assert (c_objs c_thread2_starts !! (th_self (thread_of Thread2 c_thread2_starts))
          = Some rs7) as Hobj by reflexivity.
  assert (th_self (thread_of Thread2 c_thread2_starts) ∉ c_locks c_thread2_starts)
    as Hfree by (simpl; set_solver).
  split; [exact Hpc|]. split; [exact Hobj|]. split; [exact Hfree|].
  destruct (uninterrupted_commit_is_sequential Thread2 c_thread2_starts rs7
              Hpc Hobj Hfree) as (c' & Hrun & Hobjs & _ & Hlocks & Hother).
  exists c'. split; [exact Hrun|]. split; [|exact (conj Hlocks Hother)].
  rewrite Hobjs. apply lookup_insert_eq.
Defined.

Lemma opened_blocks_are_stable_witness :
  ∃ self' fs',
    calls write_path_rest rs7_one_column fs_one_block_next_fails = Returns (self', fs')
    ∧ (0 < length (column_blocks_ rs7_one_column))%nat
    ∧ OpenColumnDataBlock self' 0 fs' = OpenColumnDataBlock rs7_one_column 0 fs'.
Proof.
  destruct (calls write_path_rest rs7_one_column fs_one_block_next_fails)
    as [[self' fs']| |] eqn:Hrun; [|by vm_compute in Hrun..].
  exists self', fs'. split; [reflexivity|].
  assert (0 < length (column_blocks_ rs7_one_column))%nat as Hlt by (simpl; lia).
  split; [exact Hlt|].
  exact (proj1 (opened_blocks_are_stable write_path_rest rs7_one_column self'
                  fs_one_block_next_fails fs' Hrun) 0%nat fs' Hlt).
Defined.
